(** * Legal document intake: the processing workflow and the upload endpoint

    A shallow embedding of
      - backend/schemas.py                      (ProcessingState),
      - backend/services/document_processor.py  (DocumentProcessor),
      - backend/services/extraction_service.py  (ExtractionService),
      - backend/services/pdf_generator.py       (PDFGenerator.generate_pdf),
      - backend/workflows/processing_workflow.py (DocumentProcessingWorkflow),
      - backend/main.py                          (upload and background task),
    followed by the properties of the job life cycle.

    Python objects that are mutated in place live in the state of a small
    state-and-exception monad; a raised exception keeps the mutations made
    before it, as in Python. *)

From Stdlib Require Import ZArith Ascii String List Bool Lia.
From stdpp Require Import base option strings pretty gmap.
Import ListNotations.

Local Open Scope Z_scope.

(* ===================================================================== *)
(** ** Python values, dictionaries and string methods *)
(* ===================================================================== *)

Module Py.

(** The JSON-like values stored in [processing_metadata] and
    [structured_data]. *)
#[warnings="-register-all"]
Inductive pyval : Type :=
| PNone
| PBool (b : bool)
| PInt (z : Z)
| PStr (s : string)
| PDict (d : list (string * pyval)).

(** A [dict] with string keys, in insertion order. *)
Definition pydict : Type := list (string * pyval).

(** [d.get(k)] *)
Fixpoint dict_get (d : pydict) (k : string) : option pyval :=
  match d with
  | [] => None
  | (k', v) :: r => if String.eqb k k' then Some v else dict_get r k
  end.

(** [d.get(k, default)] *)
Definition dict_get_default (d : pydict) (k : string) (default : pyval) : pyval :=
  match dict_get d k with Some v => v | None => default end.

(** [d[k] = v]: an existing key keeps its place, a new one goes last. *)
Fixpoint dict_set (d : pydict) (k : string) (v : pyval) : pydict :=
  match d with
  | [] => [(k, v)]
  | (k', v') :: r =>
      if String.eqb k k' then (k, v) :: r else (k', v') :: dict_set r k v
  end.

(** Truth value of [str | None]: [None] and the empty string are false. *)
Definition truthy_str (o : option string) : bool :=
  match o with
  | Some s => negb (String.eqb s "")
  | None => false
  end.

(** Truth value of [dict | None]: [None] and the empty dict are false. *)
Definition truthy_dict (o : option pydict) : bool :=
  match o with
  | Some (_ :: _) => true
  | _ => false
  end.

(** [str.lower()] on the ASCII letters (strings here are byte strings; no
    non-ASCII character lowers to a letter of the extensions below except
    the Kelvin sign, and no extension has a k). *)
Definition lower_ascii (c : ascii) : ascii :=
  let n := nat_of_ascii c in
  if (65 <=? n)%nat && (n <=? 90)%nat then ascii_of_nat (n + 32) else c.

Fixpoint lower (s : string) : string :=
  match s with
  | EmptyString => EmptyString
  | String c r => String (lower_ascii c) (lower r)
  end.

(** [s.lstrip('.')] *)
Fixpoint lstrip_dot (s : string) : string :=
  match s with
  | String "."%char r => lstrip_dot r
  | _ => s
  end.

(** [s.rfind('.')], [None] for -1. *)
Fixpoint rfind_dot (s : string) : option nat :=
  match s with
  | EmptyString => None
  | String c r =>
      match rfind_dot r with
      | Some i => Some (S i)
      | None => if Ascii.eqb c "."%char then Some 0%nat else None
      end
  end.

(** [s.split('/')] *)
Fixpoint split_slash (s : string) : list string :=
  match s with
  | EmptyString => [EmptyString]
  | String c r =>
      if Ascii.eqb c "/"%char then EmptyString :: split_slash r
      else match split_slash r with
           | [] => [String c EmptyString]
           | w :: ws => String c w :: ws
           end
  end.

(** [pathlib.PurePosixPath(p).name]: the last component, after empty and
    "." components are dropped; "" when there is none. *)
Definition path_parts (p : string) : list string :=
  List.filter (fun x => negb (String.eqb x "" || String.eqb x "."))
    (split_slash p).

Definition path_name (p : string) : string := List.last (path_parts p) "".

(** [pathlib.PurePath(p).suffix]:
    [i = name.rfind('.'); name[i:] if 0 < i < len(name) - 1 else ''] *)
Definition path_suffix (p : string) : string :=
  let name := path_name p in
  match rfind_dot name with
  | Some i =>
      if (0 <? i)%nat && (i <? String.length name - 1)%nat
      then String.substring i (String.length name - i) name
      else ""
  | None => ""
  end.

(** [x in xs] for strings. *)
Definition str_in (x : string) (xs : list string) : bool :=
  existsb (String.eqb x) xs.

End Py.
Import Py.

(* ===================================================================== *)
(** ** Exceptions and the state-and-exception monad *)
(* ===================================================================== *)

(** Exceptions: FastAPI's [HTTPException], pydantic's [ValidationError] and
    every other [Exception], the last two carried as their [str(e)]. All are
    caught by [except Exception]. *)
Inductive exn : Type :=
| HTTPException (status_code : Z) (detail : string)
| ValidationError (msg : string)
| Exception (msg : string).

Inductive outcome (A : Type) : Type :=
| Return (a : A)
| Raise (e : exn).
Arguments Return {A} a.
Arguments Raise {A} e.

Module Eff.

(** A computation over a mutable world [S]: it returns or raises, and in
    both cases hands back the world as it left it. *)
Definition M (S A : Type) : Type := S -> outcome A * S.

Definition ret {S A} (a : A) : M S A := fun w => (Return a, w).

Definition bind {S A B} (c : M S A) (k : A -> M S B) : M S B :=
  fun w =>
    match c w with
    | (Return a, w') => k a w'
    | (Raise e, w') => (Raise e, w')
    end.

Definition raise {S A} (e : exn) : M S A := fun w => (Raise e, w).

(** [try: body except Exception as e: handler(e)] *)
Definition try_except {S A} (body : M S A) (handler : exn -> M S A) : M S A :=
  fun w =>
    match body w with
    | (Return a, w') => (Return a, w')
    | (Raise e, w') => handler e w'
    end.

Definition get {S} : M S S := fun w => (Return w, w).
Definition modify {S} (f : S -> S) : M S unit := fun w => (Return tt, f w).

(** A call whose result does not touch the world. *)
Definition call {S A} (r : outcome A) : M S A := fun w => (r, w).

End Eff.
Import Eff.

Declare Scope eff_scope.
Delimit Scope eff_scope with eff.
Notation "x <- c ;; k" := (bind c (fun x => k))
  (at level 100, c at next level, right associativity) : eff_scope.
Notation "c ;; k" := (bind c (fun _ => k))
  (at level 100, right associativity) : eff_scope.

Local Open Scope eff_scope.

(** [str(e)]; Starlette prints an [HTTPException] as "status: detail". *)
Definition str_exn (e : exn) : string :=
  match e with
  | HTTPException c d => pretty c +:+ ": " +:+ d
  | ValidationError m => m
  | Exception m => m
  end.

(* ===================================================================== *)
(** ** backend/schemas.py *)
(* ===================================================================== *)

Module Schemas.

(** [Literal["employment_contract", "payslip"]] *)
Inductive DocumentType : Type := employment_contract | payslip.

(** [Literal["pending", "processing", "completed", "failed"]] *)
Inductive Status : Type := pending | processing | completed | failed.

Definition DocumentType_str (d : DocumentType) : string :=
  match d with
  | employment_contract => "employment_contract"
  | payslip => "payslip"
  end.

Definition DocumentType_of_str (s : string) : option DocumentType :=
  if String.eqb s "employment_contract" then Some employment_contract
  else if String.eqb s "payslip" then Some payslip
  else None.

Definition Status_eqb (a b : Status) : bool :=
  match a, b with
  | pending, pending | processing, processing
  | completed, completed | failed, failed => true
  | _, _ => false
  end.

Record ProcessingState : Type := mkProcessingState {
  job_id : string;
  document_type : DocumentType;
  file_path : string;
  extracted_text : option string;
  structured_data : option pydict;
  processing_status : Status;
  error_message : option string;
  pdf_path : option string;
  current_node : option string;
  processing_metadata : pydict;
  retry_count : Z
}.

(** Attribute assignments [state.f = v]. *)
Definition set_extracted_text (v : option string) (s : ProcessingState) :=
  mkProcessingState (job_id s) (document_type s) (file_path s) v
    (structured_data s) (processing_status s) (error_message s) (pdf_path s)
    (current_node s) (processing_metadata s) (retry_count s).
Definition set_structured_data (v : option pydict) (s : ProcessingState) :=
  mkProcessingState (job_id s) (document_type s) (file_path s)
    (extracted_text s) v (processing_status s) (error_message s) (pdf_path s)
    (current_node s) (processing_metadata s) (retry_count s).
Definition set_processing_status (v : Status) (s : ProcessingState) :=
  mkProcessingState (job_id s) (document_type s) (file_path s)
    (extracted_text s) (structured_data s) v (error_message s) (pdf_path s)
    (current_node s) (processing_metadata s) (retry_count s).
Definition set_error_message (v : option string) (s : ProcessingState) :=
  mkProcessingState (job_id s) (document_type s) (file_path s)
    (extracted_text s) (structured_data s) (processing_status s) v (pdf_path s)
    (current_node s) (processing_metadata s) (retry_count s).
Definition set_pdf_path (v : option string) (s : ProcessingState) :=
  mkProcessingState (job_id s) (document_type s) (file_path s)
    (extracted_text s) (structured_data s) (processing_status s)
    (error_message s) v (current_node s) (processing_metadata s) (retry_count s).
Definition set_current_node (v : option string) (s : ProcessingState) :=
  mkProcessingState (job_id s) (document_type s) (file_path s)
    (extracted_text s) (structured_data s) (processing_status s)
    (error_message s) (pdf_path s) v (processing_metadata s) (retry_count s).
Definition set_processing_metadata (v : pydict) (s : ProcessingState) :=
  mkProcessingState (job_id s) (document_type s) (file_path s)
    (extracted_text s) (structured_data s) (processing_status s)
    (error_message s) (pdf_path s) (current_node s) v (retry_count s).
Definition set_retry_count (v : Z) (s : ProcessingState) :=
  mkProcessingState (job_id s) (document_type s) (file_path s)
    (extracted_text s) (structured_data s) (processing_status s)
    (error_message s) (pdf_path s) (current_node s) (processing_metadata s) v.

(** [ProcessingState.update_status(status, node=None)] *)
Definition update_status (status : Status) (node : option string)
    (self : ProcessingState) : ProcessingState :=
  let self := set_processing_status status self in
  if truthy_str node then set_current_node node self else self.

(** The field constraints pydantic checks when a [ProcessingState] is
    built: [job_id] and [file_path] have [min_length=1]. The text of
    pydantic's message is abbreviated. *)
Definition check_fields (s : ProcessingState) : outcome ProcessingState :=
  if String.eqb (job_id s) "" then
    Raise (ValidationError "job_id: String should have at least 1 character")
  else if String.eqb (file_path s) "" then
    Raise (ValidationError "file_path: String should have at least 1 character")
  else Return s.

(** [ProcessingState(job_id=.., document_type=.., file_path=..,
    processing_status=.., error_message=..)] from the raw strings of a
    request; every other field takes its default. *)
Definition new_ProcessingState (job_id document_type file_path : string)
    (processing_status : Status) (error_message : option string)
    : outcome ProcessingState :=
  match DocumentType_of_str document_type with
  | None =>
      Raise (ValidationError
               "document_type: Input should be 'employment_contract' or 'payslip'")
  | Some dt =>
      check_fields
        (mkProcessingState job_id dt file_path None None processing_status
           error_message None None [] 0)
  end.

End Schemas.
Import Schemas.

(* ===================================================================== *)
(** ** The services the workflow calls *)
(* ===================================================================== *)

(** The disk, as the set of paths that exist. *)
Definition disk : Type := list string.

(** [Path(p).exists()]: a path with no component ([""], ["."]) is the
    current directory, which exists; any other path is looked up as
    written. *)
Definition exists_on (d : disk) (p : string) : bool :=
  match path_parts p with
  | [] => true
  | _ => str_in p d
  end.

(** What [DocumentProcessor.process_document] returns: the dict with
    ["success": True] or the one with ["success": False]. A key read with
    [.get(k, default)] is optional. *)
Inductive ProcessResult : Type :=
| ProcessSuccess (extracted_text : string) (page_count : option pyval)
    (metadata : option pydict)
| ProcessFailure (error : option string).

(** What [ExtractionService.extract_from_document] returns. *)
Inductive ExtractResult : Type :=
| ExtractSuccess (data : pydict) (model_used : option pyval)
| ExtractFailure (error : string) (details : option string).

(** The three collaborators as the workflow sees them; each call may
    return or raise. Rendering a PDF may write to the disk. *)
Record Services : Type := mkServices {
  dp_validate_file_format : string -> outcome bool;
  dp_process_document : disk -> string -> DocumentType -> outcome ProcessResult;
  es_extract_from_document :
    option string -> DocumentType -> outcome ExtractResult;
  pg_generate_pdf :
    disk -> pydict -> DocumentType -> string -> outcome string * disk
}.

Module DocumentProcessor.

Definition get_supported_formats : list string :=
  ["pdf"; "docx"; "pptx"; "xlsx"; "html"; "png"; "jpg"; "jpeg"; "tiff"; "bmp"].

(** [extension = Path(file_path).suffix.lower().lstrip('.')] *)
Definition validate_file_format (file_path : string) : bool :=
  let extension := lstrip_dot (lower (path_suffix file_path)) in
  str_in extension get_supported_formats.

(** What Docling's conversion yields once [_extract_metadata] and
    [_clean_text] have run on it. *)
Record Converted : Type := mkConverted {
  cleaned_text : string;
  doc_metadata : pydict;
  doc_page_count : Z
}.

(** [process_document]: a missing file raises [FileNotFoundError] before
    the [try]; a failing conversion is returned as a failure dict.
    [convert] stands for the Docling converter with the text cleaning.
    The code names the file by [str(Path(file_path))], in the message
    and to the converter: that is [file_path] itself when it is a
    [plain_path], as the paths of uploads are. *)
Definition process_document
    (convert : string -> DocumentType -> outcome Converted)
    (d : disk) (file_path : string) (document_type : DocumentType)
    : outcome ProcessResult :=
  if negb (exists_on d file_path) then
    Raise (Exception ("Document not found: " +:+ file_path))
  else
    match convert file_path document_type with
    | Return r =>
        Return (ProcessSuccess (cleaned_text r) (Some (PInt (doc_page_count r)))
                  (Some (doc_metadata r)))
    | Raise e => Return (ProcessFailure (Some (str_exn e)))
    end.

End DocumentProcessor.

Module ExtractionService.

Definition model_name (document_type : DocumentType) : string :=
  match document_type with
  | employment_contract => "EmploymentContract"
  | payslip => "PayslipData"
  end.

(** [_extract_structured_data]: [create] is the Instructor client call
    with the response model of the document type. *)
Definition _extract_structured_data
    (create : option string -> DocumentType -> outcome pydict)
    (document_text : option string) (document_type : DocumentType)
    : ExtractResult :=
  match create document_text document_type with
  | Return data =>
      ExtractSuccess data (Some (PStr (model_name document_type)))
  | Raise (ValidationError m) => ExtractFailure "validation_error" (Some m)
  | Raise e => ExtractFailure "extraction_error" (Some (str_exn e))
  end.

(** [extract_from_document]: both document types go to
    [_extract_structured_data]; the third branch needs a type outside
    [DocumentType]. *)
Definition extract_from_document
    (create : option string -> DocumentType -> outcome pydict)
    (document_text : option string) (document_type : DocumentType)
    : outcome ExtractResult :=
  match document_type with
  | employment_contract =>
      Return (_extract_structured_data create document_text employment_contract)
  | payslip =>
      Return (_extract_structured_data create document_text payslip)
  end.

End ExtractionService.

Module PDFGenerator.

Definition output_dir : string := "generated_pdfs".

(** [generate_pdf]: the file name is the document type and the job id;
    [build] is ReportLab's [doc.build], which writes the file when it
    returns.  The code joins directory and name with pathlib
    ([output_dir / filename]): that is this concatenation when the job
    id holds no slash, as the ids of uploads do. *)
Definition generate_pdf (build : string -> pydict -> outcome unit)
    (d : disk) (document_data : pydict) (document_type : DocumentType)
    (job_id : string) : outcome string * disk :=
  let filename := DocumentType_str document_type +:+ "_" +:+ job_id +:+ ".pdf" in
  let filepath := output_dir +:+ "/" +:+ filename in
  match build filepath document_data with
  | Return _ => (Return filepath, filepath :: d)
  | Raise e => (Raise e, d)
  end.

End PDFGenerator.

(** The services of the repository, over the three libraries they wrap. *)
Definition real_services
    (convert : string -> DocumentType -> outcome DocumentProcessor.Converted)
    (create : option string -> DocumentType -> outcome pydict)
    (build : string -> pydict -> outcome unit) : Services :=
  {| dp_validate_file_format := fun p => Return (DocumentProcessor.validate_file_format p);
     dp_process_document := DocumentProcessor.process_document convert;
     es_extract_from_document := ExtractionService.extract_from_document create;
     pg_generate_pdf := PDFGenerator.generate_pdf build |}.

(* ===================================================================== *)
(** ** backend/workflows/processing_workflow.py *)
(* ===================================================================== *)

Module Workflow.

(** The world of a workflow run: the disk and the [state] object the
    running node mutates. *)
Record Heap : Type := mkHeap { files : disk; state : ProcessingState }.

Definition W : Type -> Type := M Heap.

Definition get_state : W ProcessingState :=
  fun h => (Return (state h), h).

Definition put_state (s : ProcessingState) : W unit :=
  modify (fun h => mkHeap (files h) s).

Definition assign (f : ProcessingState -> ProcessingState) : W unit :=
  modify (fun h => mkHeap (files h) (f (state h))).

(** [state.update_status(status, node)] *)
Definition update_status (status : Status) (node : string) : W unit :=
  assign (Schemas.update_status status (Some node)).

(** [state.processing_metadata[k] = v] *)
Definition set_metadata (k : string) (v : pyval) : W unit :=
  assign (fun s => set_processing_metadata (dict_set (processing_metadata s) k v) s).

Definition pyval_of_opt_str (o : option string) : pyval :=
  match o with Some s => PStr s | None => PNone end.

Section Nodes.

Variable sv : Services.

Definition _validate_document_node : W ProcessingState :=
  try_except
    (update_status processing "validate_document" ;;
     s <- get_state ;;
     ok <- call (dp_validate_file_format sv (file_path s)) ;;
     if negb ok then
       assign (set_error_message
                 (Some ("Unsupported file format: " +:+ file_path s))) ;;
       update_status failed "validate_document" ;;
       get_state
     else
       set_metadata "validation"
         (PDict [("file_exists", PBool true);
                 ("format_supported", PBool true);
                 ("validated_at", PStr "validate_document")]) ;;
       get_state)
    (fun e =>
       assign (set_error_message (Some ("Validation error: " +:+ str_exn e))) ;;
       update_status failed "validate_document" ;;
       get_state).

Definition _process_document_node : W ProcessingState :=
  try_except
    (update_status processing "process_document" ;;
     s <- get_state ;;
     result <- (fun h => (dp_process_document sv (files h) (file_path s)
                            (document_type s), h)) ;;
     match result with
     | ProcessFailure error =>
         assign (set_error_message
                   (Some ("Document processing failed: "
                          +:+ default "Unknown error" error))) ;;
         update_status failed "process_document" ;;
         get_state
     | ProcessSuccess text page_count metadata =>
         assign (set_extracted_text (Some text)) ;;
         set_metadata "document_processing"
           (PDict [("page_count", default (PInt 1) page_count);
                   ("format",
                    dict_get_default (default [] metadata) "format"
                      (PStr "unknown"));
                   ("tables_found",
                    dict_get_default (default [] metadata) "tables_found"
                      (PInt 0));
                   ("processing_node", PStr "process_document")]) ;;
         get_state
     end)
    (fun e =>
       assign (set_error_message (Some ("Processing error: " +:+ str_exn e))) ;;
       update_status failed "process_document" ;;
       get_state).

Definition _extract_data_node : W ProcessingState :=
  try_except
    (update_status processing "extract_data" ;;
     s <- get_state ;;
     result <- call (es_extract_from_document sv (extracted_text s)
                       (document_type s)) ;;
     match result with
     | ExtractFailure _ details =>
         assign (set_error_message
                   (Some ("Data extraction failed: "
                          +:+ default "Unknown error" details))) ;;
         update_status failed "extract_data" ;;
         get_state
     | ExtractSuccess data model_used =>
         assign (set_structured_data (Some data)) ;;
         set_metadata "extraction"
           (PDict [("model_used", default (PStr "unknown") model_used);
                   ("extraction_successful", PBool true);
                   ("extraction_node", PStr "extract_data")]) ;;
         get_state
     end)
    (fun e =>
       assign (set_error_message (Some ("Extraction error: " +:+ str_exn e))) ;;
       update_status failed "extract_data" ;;
       get_state).

Definition _generate_pdf_node : W ProcessingState :=
  try_except
    (update_status processing "generate_pdf" ;;
     s <- get_state ;;
     if negb (truthy_dict (structured_data s)) then
       assign (set_error_message
                 (Some "No structured data available for PDF generation")) ;;
       update_status failed "generate_pdf" ;;
       get_state
     else
       pdf_path <- (fun h =>
                      let '(r, d) :=
                        pg_generate_pdf sv (files h)
                          (default [] (structured_data s))
                          (document_type s) (job_id s) in
                      (r, mkHeap d (state h))) ;;
       assign (set_pdf_path (Some pdf_path)) ;;
       set_metadata "pdf_generation"
         (PDict [("pdf_generated", PBool true);
                 ("pdf_path", PStr pdf_path);
                 ("generation_node", PStr "generate_pdf")]) ;;
       update_status completed "generate_pdf" ;;
       get_state)
    (fun e =>
       assign (set_error_message
                 (Some ("PDF generation error: " +:+ str_exn e))) ;;
       update_status failed "generate_pdf" ;;
       get_state).

Definition max_retries : Z := 3.

Definition _handle_error_node : W ProcessingState :=
  s <- get_state ;;
  (if retry_count s <? max_retries then
     assign (fun s => set_retry_count (retry_count s + 1) s) ;;
     update_status pending "retry"
   else ret tt) ;;
  update_status failed "handle_error" ;;
  s <- get_state ;;
  set_metadata "error_handling"
    (PDict [("final_error", pyval_of_opt_str (error_message s));
            ("retry_count", PInt (retry_count s));
            ("error_node", PStr "handle_error")]) ;;
  get_state.

(** The routing functions of the conditional edges. *)
Inductive Route : Type := Continue | Error.

Definition _should_continue_after_validation (s : ProcessingState) : Route :=
  if negb (Status_eqb (processing_status s) failed) then Continue else Error.

Definition _should_continue_after_processing (s : ProcessingState) : Route :=
  if negb (Status_eqb (processing_status s) failed) then Continue else Error.

Definition _should_continue_after_extraction (s : ProcessingState) : Route :=
  if negb (Status_eqb (processing_status s) failed) then Continue else Error.

(** The nodes and edges [_build_workflow] adds; [None] is [END]. *)
Inductive Node : Type :=
| validate_document | process_document_n | extract_data | generate_pdf
| handle_error.

Definition START : Node := validate_document.

Definition node_action (n : Node) : W ProcessingState :=
  match n with
  | validate_document => _validate_document_node
  | process_document_n => _process_document_node
  | extract_data => _extract_data_node
  | generate_pdf => _generate_pdf_node
  | handle_error => _handle_error_node
  end.

Definition edge (n : Node) (s : ProcessingState) : option Node :=
  match n with
  | validate_document =>
      match _should_continue_after_validation s with
      | Continue => Some process_document_n
      | Error => Some handle_error
      end
  | process_document_n =>
      match _should_continue_after_processing s with
      | Continue => Some extract_data
      | Error => Some handle_error
      end
  | extract_data =>
      match _should_continue_after_extraction s with
      | Continue => Some generate_pdf
      | Error => Some handle_error
      end
  | generate_pdf => None
  | handle_error => None
  end.

(** LangGraph stops a run with [GraphRecursionError] after this many
    steps (its default). *)
Definition recursion_limit : nat := 25.

(** The compiled graph: run node [n] on [input], follow the edge of its
    output. The result lists every node run with the state it
    returned. *)
Fixpoint run (fuel : nat) (n : Node) (input : ProcessingState)
    : W (list (Node * ProcessingState)) :=
  match fuel with
  | O => raise (Exception "Recursion limit of 25 reached")
  | S fuel' =>
      put_state input ;;
      out <- node_action n ;;
      match edge n out with
      | None => ret [(n, out)]
      | Some n' =>
          rest <- run fuel' n' out ;;
          ret ((n, out) :: rest)
      end
  end.

(** [self.workflow.invoke(values, config)]: the state the last node
    returned.  What LangGraph does around the nodes (the check of the
    input against the schema, the checkpoint it writes after each step)
    is not part of this repository and is not modelled. *)
Definition invoke (input : ProcessingState) : W ProcessingState :=
  tr <- run recursion_limit START input ;;
  ret (List.last (map snd tr) input).

(** [process_document]: the graph runs on a copy ([model_dump]) of
    [initial_state]; building the final [ProcessingState] from the
    result checks the fields again; the handler marks the caller's own [initial_state]. *)
Definition process_document (initial_state : ProcessingState)
    : W ProcessingState :=
  try_except
    (result <- invoke initial_state ;;
     final_state <- call (check_fields result) ;;
     ret final_state)
    (fun e =>
       put_state initial_state ;;
       assign (set_error_message (Some ("Workflow error: " +:+ str_exn e))) ;;
       update_status failed "workflow_error" ;;
       get_state).

End Nodes.

End Workflow.

(* ===================================================================== *)
(** ** backend/main.py *)
(* ===================================================================== *)

Module Main.

Import Workflow.

Definition MAX_FILE_SIZE : Z := 10 * 1024 * 1024.

(** The set literal, in the order it is written (a Python set has no
    order of its own; only membership is used below, and the order in
    which the error text lists the types). *)
Definition ALLOWED_EXTENSIONS : list string :=
  [".pdf"; ".docx"; ".png"; ".jpg"; ".jpeg"; ".tiff"; ".bmp"].

Definition UPLOAD_DIR : string := "uploads".

(** The [size] attribute of an upload: absent on the object
    ([hasattr(file, 'size')] is false), [None], or an integer. *)
Inductive SizeAttr : Type := NoSizeAttr | SizeNone | SizeInt (n : Z).

Record UploadFile : Type := mkUploadFile {
  filename : option string;
  size : SizeAttr;
  content : list Byte.byte
}.

Record UploadResponse : Type := mkUploadResponse {
  resp_job_id : string;
  resp_message : string;
  resp_file_path : string
}.

(** The module's globals and what the endpoint can touch: the job
    store, the disk, how many ids [uuid.uuid4()] has handed out, and the
    background tasks added so far (job id, file path, document type). *)
Record App : Type := mkApp {
  job_storage : gmap string ProcessingState;
  app_files : disk;
  uuid_calls : nat;
  background_tasks : list (string * string * string)
}.

Definition Api : Type -> Type := M App.

(** [job_storage[job_id] = s] *)
Definition store (job_id : string) (s : ProcessingState) : Api unit :=
  modify (fun a => mkApp (<[job_id := s]> (job_storage a)) (app_files a)
                     (uuid_calls a) (background_tasks a)).

Definition write_file (p : string) : Api unit :=
  modify (fun a => mkApp (job_storage a) (p :: app_files a)
                     (uuid_calls a) (background_tasks a)).

Definition add_task (t : string * string * string) : Api unit :=
  modify (fun a => mkApp (job_storage a) (app_files a) (uuid_calls a)
                     (background_tasks a ++ [t])).

(** [', '.join(xs)]; the order in which Python walks the set
    [ALLOWED_EXTENSIONS] is not fixed, and nothing below states this
    text. *)
Definition join_comma (xs : list string) : string :=
  match xs with
  | [] => ""
  | x :: r => fold_left (fun acc y => acc +:+ ", " +:+ y) r x
  end.

Definition validate_file_upload (file : UploadFile) : outcome unit :=
  if negb (truthy_str (filename file)) then
    Raise (HTTPException 400 "No filename provided")
  else
    let file_extension := lower (path_suffix (default "" (filename file))) in
    if negb (str_in file_extension ALLOWED_EXTENSIONS) then
      Raise (HTTPException 400
               ("File type " +:+ file_extension
                +:+ " not supported. Allowed types: "
                +:+ join_comma ALLOWED_EXTENSIONS))
    else
      match size file with
      | NoSizeAttr => Return tt
      | SizeNone =>
          Raise (Exception
                   "'>' not supported between instances of 'NoneType' and 'int'")
      | SizeInt n =>
          if MAX_FILE_SIZE <? n then
            Raise (HTTPException 400 "File too large. Maximum size: 10.0MB")
          else Return tt
      end.

(** [save_uploaded_file]: the [HTTPException] for an oversize content is
    raised inside the [try] and so reaches the handler below it. The
    joined path is written out for a [job_id] with no "/" in it. *)
Definition save_uploaded_file (file : UploadFile) (job_id : string) : Api string :=
  let file_extension := lower (path_suffix (default "" (filename file))) in
  let file_path := UPLOAD_DIR +:+ "/" +:+ job_id +:+ file_extension in
  try_except
    (let content := content file in
     if MAX_FILE_SIZE <? Z.of_nat (length content) then
       raise (HTTPException 400 "File too large. Maximum size: 10.0MB")
     else
       write_file file_path ;;
       ret file_path)
    (fun e => raise (HTTPException 500 "Error saving file")).

Section Service.

(** [uuid4 n] is the id the n-th call of [uuid.uuid4()] returns. *)
Variable uuid4 : nat -> string.

(** The global [workflow_instance]: [None] until the lifespan hook has
    built the workflow. *)
Variable workflow_instance : option Services.

Definition new_job_id : Api string :=
  fun a => (Return (uuid4 (uuid_calls a)),
            mkApp (job_storage a) (app_files a) (S (uuid_calls a))
              (background_tasks a)).

(** A workflow call from the application: it shares the disk. *)
Definition in_workflow {T} (c : W T) (s : ProcessingState) : Api T :=
  fun a =>
    let '(r, h) := c (mkHeap (app_files a) s) in
    (r, mkApp (job_storage a) (files h) (uuid_calls a) (background_tasks a)).

Definition process_document_background
    (job_id file_path document_type : string) : Api unit :=
  try_except
    (initial_state <-
       call (new_ProcessingState job_id document_type file_path pending None) ;;
     final_state <-
       match workflow_instance with
       | Some sv => in_workflow (process_document sv initial_state) initial_state
       | None =>
           raise (Exception
                    "'NoneType' object has no attribute 'process_document'")
       end ;;
     store job_id final_state)
    (fun e =>
       error_state <-
         call (new_ProcessingState job_id document_type file_path failed
                 (Some (str_exn e))) ;;
       store job_id error_state).

Definition upload_document (file : UploadFile) (document_type : string)
    : Api UploadResponse :=
  if negb (str_in document_type ["employment_contract"; "payslip"]) then
    raise (HTTPException 400
             "document_type must be either 'employment_contract' or 'payslip'")
  else
    call (validate_file_upload file) ;;
    job_id <- new_job_id ;;
    try_except
      (file_path <- save_uploaded_file file job_id ;;
       add_task (job_id, file_path, document_type) ;;
       initial_state <-
         call (new_ProcessingState job_id document_type file_path pending None) ;;
       store job_id initial_state ;;
       ret (mkUploadResponse job_id
              "Document uploaded successfully. Processing started."
              file_path))
      (fun e => raise (HTTPException 500 "Upload failed")).

(** A job from request to final record: the upload, then the
    background task FastAPI runs once the response is sent. *)
Definition upload_and_process (file : UploadFile) (document_type : string)
    : Api UploadResponse :=
  resp <- upload_document file document_type ;;
  process_document_background (resp_job_id resp) (resp_file_path resp)
    document_type ;;
  ret resp.

End Service.

End Main.

(* ===================================================================== *)
(** ** What a run of the graph is, and the properties to be proved *)
(* ===================================================================== *)

Import Workflow Main.

(** A run of the graph from node [n] on [s] with disk [d]: the nodes run,
    each with the state it returned, and the disk at the end. *)
Inductive exec (sv : Services)
  : Node -> ProcessingState -> disk -> list (Node * ProcessingState) -> disk -> Prop :=
| exec_last n s d s' d' :
    node_action sv n (mkHeap d s) = (Return s', mkHeap d' s') ->
    edge n s' = None ->
    exec sv n s d [(n, s')] d'
| exec_next n s d s' d' n' tr d'' :
    node_action sv n (mkHeap d s) = (Return s', mkHeap d' s') ->
    edge n s' = Some n' ->
    exec sv n' s' d' tr d'' ->
    exec sv n s d ((n, s') :: tr) d''.

(** The longest path that starts at a node. *)
Definition rank (n : Node) : nat :=
  match n with
  | validate_document => 4
  | process_document_n => 3
  | extract_data => 2
  | generate_pdf => 1
  | handle_error => 1
  end.

Definition node_name (n : Node) : string :=
  match n with
  | validate_document => "validate_document"
  | process_document_n => "process_document"
  | extract_data => "extract_data"
  | generate_pdf => "generate_pdf"
  | handle_error => "handle_error"
  end.

(** The state [process_document] returns from its handler. *)
Definition workflow_error_state (initial_state : ProcessingState) (e : exn)
    : ProcessingState :=
  Schemas.update_status failed (Some "workflow_error")
    (set_error_message (Some ("Workflow error: " +:+ str_exn e)) initial_state).

(** [status == failed] implies [error_message] is set. *)
Definition failed_has_message (s : ProcessingState) : Prop :=
  processing_status s = failed -> exists m, error_message s = Some m.

(** The retry counts along a trace never go down. *)
Fixpoint nondecreasing (start : Z) (counts : list Z) : Prop :=
  match counts with
  | [] => True
  | c :: r => start <= c /\ nondecreasing c r
  end.

(** The renderer's contract: the path it returns exists when it returns. *)
Definition renderer_writes (sv : Services) : Prop :=
  forall d data dt j p d',
    pg_generate_pdf sv d data dt j = (Return p, d') -> In p d'.

(** A job's report is in place: set, and on the disk. *)
Definition report_in_place (d : disk) (s : ProcessingState) : Prop :=
  processing_status s = completed ->
  exists p, pdf_path s = Some p /\ In p d.

(** A node left the job [failed] with message [m]. *)
Definition failed_with (s : ProcessingState) (m : string) : Prop :=
  processing_status s = failed /\ error_message s = Some m.

(** What a step makes of an exception at its boundary: for input [s] on
    disk [d], if the step's collaborator raises, the returned state [s']
    is [failed] and carries the exception's text. The renderer is only
    called when there is structured data. *)
Definition raise_converted (sv : Services) (n : Node) (d : disk)
    (s s' : ProcessingState) : Prop :=
  match n with
  | validate_document =>
      match dp_validate_file_format sv (file_path s) with
      | Raise e => failed_with s' ("Validation error: " +:+ str_exn e)
      | Return _ => True
      end
  | process_document_n =>
      match dp_process_document sv d (file_path s) (document_type s) with
      | Raise e => failed_with s' ("Processing error: " +:+ str_exn e)
      | Return _ => True
      end
  | extract_data =>
      match es_extract_from_document sv (extracted_text s) (document_type s) with
      | Raise e => failed_with s' ("Extraction error: " +:+ str_exn e)
      | Return _ => True
      end
  | generate_pdf =>
      match structured_data s with
      | Some (kv :: data) =>
          match (pg_generate_pdf sv d (kv :: data) (document_type s) (job_id s)).1 with
          | Raise e => failed_with s' ("PDF generation error: " +:+ str_exn e)
          | Return _ => True
          end
      | _ => failed_with s' "No structured data available for PDF generation"
      end
  | handle_error => True
  end.

(** A failed job has used up its retries unless its file
    format is unsupported. *)
Definition failed_after_retries_or_unsupported (s : ProcessingState) : Prop :=
  processing_status s = failed ->
  (exists m, error_message s = Some m) /\
  (retry_count s = max_retries \/
   DocumentProcessor.validate_file_format (file_path s) = false).

(** *** The upload endpoint *)

(** The conditions the endpoint checks before it asks for a job id. *)
Definition early_reject (file : UploadFile) (document_type : string) : bool :=
  negb (str_in document_type ["employment_contract"; "payslip"])
  || negb (truthy_str (filename file))
  || negb (str_in (lower (path_suffix (default "" (filename file))))
             ALLOWED_EXTENSIONS)
  || match size file with SizeInt n => MAX_FILE_SIZE <? n | _ => false end.

(** An upload as the endpoint receives it: the framework sets [size] to
    the number of bytes of the content. *)
Definition parsed_upload (file : UploadFile) : Prop :=
  size file = SizeInt (Z.of_nat (length (content file))).

(** The content is larger than the maximum. *)
Definition oversize (file : UploadFile) : Prop :=
  MAX_FILE_SIZE < Z.of_nat (length (content file)).

(** The request was refused with status 400 and left no trace: no id was
    handed out and the job store is as it was. *)
Definition rejected_before_job (a : App) (res : outcome UploadResponse * App)
    : Prop :=
  (exists detail, res.1 = Raise (HTTPException 400 detail)) /\
  uuid_calls res.2 = uuid_calls a /\
  job_storage res.2 = job_storage a.

(** The characters of [str(uuid.uuid4())]: 36 of them, hexadecimal digits
    and dashes. *)
Definition uuid_char (c : ascii) : bool :=
  let n := nat_of_ascii c in
  ((48 <=? n)%nat && (n <=? 57)%nat) || ((97 <=? n)%nat && (n <=? 102)%nat)
  || (n =? 45)%nat.

Definition is_uuid (s : string) : bool :=
  (String.length s =? 36)%nat && forallb uuid_char (list_ascii_of_string s).

(** No "/" occurs in the string. *)
Fixpoint no_slash (s : string) : bool :=
  match s with
  | EmptyString => true
  | String c r => negb (Ascii.eqb c "/"%char) && no_slash r
  end.

(** The path is relative and has no empty and no "." component: it is
    then the text pathlib prints for it, [str(Path(p)) == p]. *)
Definition plain_path (p : string) : bool :=
  forallb (fun c => negb (String.eqb c "" || String.eqb c "."))
    (split_slash p).

(** *** Sample libraries, jobs and requests *)

Definition convert_ok : string -> DocumentType -> outcome DocumentProcessor.Converted :=
  fun _ _ =>
    Return (DocumentProcessor.mkConverted "Employment Contract Employee: John Doe"
              [("format", PStr "pdf"); ("tables_found", PInt 0)] 1).

Definition create_ok : option string -> DocumentType -> outcome pydict :=
  fun _ _ => Return [("employee_full_name", PStr "John Doe")].

Definition create_fails : option string -> DocumentType -> outcome pydict :=
  fun _ _ => Raise (Exception "model unavailable").

Definition build_ok : string -> pydict -> outcome unit := fun _ _ => Return tt.

Definition build_fails : string -> pydict -> outcome unit :=
  fun _ _ => Raise (Exception "disk full").

Definition sv_ok : Services := real_services convert_ok create_ok build_ok.
Definition sv_extract_fails : Services :=
  real_services convert_ok create_fails build_ok.
Definition sv_render_fails : Services :=
  real_services convert_ok create_ok build_fails.

Definition job0 : ProcessingState :=
  mkProcessingState "job-1" employment_contract "uploads/job-1.pdf"
    None None pending None None None [] 0.

Definition heap0 : Heap := mkHeap ["uploads/job-1.pdf"] job0.

Definition uuid0 : nat -> string :=
  fun _ => "123e4567-e89b-42d3-a456-426614174000".

Definition app0 : App := mkApp ∅ [] 0%nat [].

Definition pdf_upload : UploadFile :=
  mkUploadFile (Some "contract.pdf") (SizeInt 4)
    [Byte.x25; Byte.x50; Byte.x44; Byte.x46].

Definition exe_upload : UploadFile :=
  mkUploadFile (Some "test.exe") (SizeInt 2) [Byte.x4d; Byte.x5a].

(* ===================================================================== *)
(** ** backend/main.py: the endpoints that read and delete *)
(* ===================================================================== *)

Module Endpoints.

Record ProcessingStatusResponse : Type := mkStatusResponse {
  st_job_id : string;
  st_status : Status;
  st_current_node : option string;
  st_metadata : pydict;
  st_error_message : option string
}.

Record ProcessingResultResponse : Type := mkResultResponse {
  res_job_id : string;
  res_success : bool;
  res_document_type : DocumentType;
  res_extracted_data : option pydict;
  res_pdf_path : option string;
  res_error_message : option string
}.

Record FileResponse : Type := mkFileResponse {
  fr_path : string;
  fr_media_type : string;
  fr_filename : string
}.

(** The dict [health_check] returns; [jobs_by_status] is spread over four
    fields. *)
Record Health : Type := mkHealth {
  health_status : string;
  workflow_initialized : bool;
  total_jobs : Z;
  jobs_pending : Z;
  jobs_processing : Z;
  jobs_completed : Z;
  jobs_failed : Z;
  active_jobs : Z
}.

(** The projection both [/status] and [/jobs] build. *)
Definition status_response (job_id : string) (state : ProcessingState)
    : ProcessingStatusResponse :=
  mkStatusResponse job_id (processing_status state) (current_node state)
    (processing_metadata state) (error_message state).

(** [job_storage.items()]; the order of a Python dict (insertion) is not
    kept by the map, so only order-free facts are stated of it. *)
Definition items (a : App) : list (string * ProcessingState) :=
  map_to_list (job_storage a).

(** [Path(p).exists()] now. *)
Definition path_exists (p : string) : Api bool :=
  fun a => (Return (exists_on (app_files a) p), a).

(** [Path(p).unlink()]: when it returns, the file is gone.  It raises on
    the current directory (a path with no component) and whenever the
    operating system refuses (a directory, a permission, an I/O error):
    [os_error p] is the error it then answers for [p], if any, and the
    disk is as it was. *)
Definition unlink (os_error : string -> option exn) (p : string) : Api unit :=
  fun a =>
    match path_parts p with
    | [] => (Raise (Exception ("[Errno 21] Is a directory: '" +:+ p +:+ "'")), a)
    | _ =>
        match os_error p with
        | Some e => (Raise e, a)
        | None =>
            (Return tt,
             mkApp (job_storage a)
               (List.filter (fun q => negb (String.eqb q p)) (app_files a))
               (uuid_calls a) (background_tasks a))
        end
    end.

(** [del job_storage[job_id]] *)
Definition forget (job_id : string) : Api unit :=
  modify (fun a => mkApp (delete job_id (job_storage a)) (app_files a)
                     (uuid_calls a) (background_tasks a)).

(** One round of the counting loop of [health_check]. *)
Definition count_status (counts : Z * Z * Z * Z) (s : ProcessingState)
    : Z * Z * Z * Z :=
  let '(p, r, c, f) := counts in
  match processing_status s with
  | pending => (p + 1, r, c, f)
  | processing => (p, r + 1, c, f)
  | completed => (p, r, c + 1, f)
  | failed => (p, r, c, f + 1)
  end.

Definition health_check (workflow_instance : option Services) : Api Health :=
  a <- get ;;
  let '(p, r, c, f) :=
    fold_left count_status (map snd (items a)) (0, 0, 0, 0) in
  ret (mkHealth "healthy"
         (match workflow_instance with Some _ => true | None => false end)
         (Z.of_nat (length (items a))) p r c f (p + r)).

Definition get_processing_status (job_id : string)
    : Api ProcessingStatusResponse :=
  a <- get ;;
  match job_storage a !! job_id with
  | None => raise (HTTPException 404 "Job not found")
  | Some state => ret (status_response job_id state)
  end.

Definition get_processing_result (job_id : string)
    : Api ProcessingResultResponse :=
  a <- get ;;
  match job_storage a !! job_id with
  | None => raise (HTTPException 404 "Job not found")
  | Some state =>
      if Status_eqb (processing_status state) processing then
        raise (HTTPException 202 "Processing still in progress")
      else
        ret (mkResultResponse job_id
               (Status_eqb (processing_status state) completed)
               (document_type state) (structured_data state)
               (pdf_path state) (error_message state))
  end.

Definition download_pdf (job_id : string) : Api FileResponse :=
  a <- get ;;
  match job_storage a !! job_id with
  | None => raise (HTTPException 404 "Job not found")
  | Some state =>
      if negb (Status_eqb (processing_status state) completed) then
        raise (HTTPException 400 "Processing not completed")
      else
        found <- (if truthy_str (pdf_path state)
                  then path_exists (default "" (pdf_path state))
                  else ret false) ;;
        if negb found then raise (HTTPException 404 "PDF not found")
        else ret (mkFileResponse (default "" (pdf_path state))
                    "application/pdf" (job_id +:+ ".pdf"))
  end.

Definition list_jobs : Api (list ProcessingStatusResponse) :=
  a <- get ;;
  ret (map (fun kv => status_response kv.1 kv.2) (items a)).

(** [if p and Path(p).exists(): Path(p).unlink()] *)
Definition unlink_if_exists (os_error : string -> option exn)
    (p : option string) : Api unit :=
  if truthy_str p then
    found <- path_exists (default "" p) ;;
    if found then unlink os_error (default "" p) else ret tt
  else ret tt.

(** [delete_job]: a failure to remove a file is logged and dropped, and
    what the [try] had still to remove stays; the record goes in every
    case. *)
Definition delete_job (os_error : string -> option exn) (job_id : string)
    : Api string :=
  a <- get ;;
  match job_storage a !! job_id with
  | None => raise (HTTPException 404 "Job not found")
  | Some state =>
      try_except
        (unlink_if_exists os_error (Some (file_path state)) ;;
         unlink_if_exists os_error (pdf_path state))
        (fun e => ret tt) ;;
      forget job_id ;;
      ret ("Job " +:+ job_id +:+ " deleted successfully")
  end.

End Endpoints.

(* ===================================================================== *)
(** ** streamlit_ui/utils.py: the check the front end makes before upload *)
(* ===================================================================== *)

Module StreamlitUtils.

(** Streamlit's uploaded file: its name and its size. *)
Record UploadedFile : Type := mkUploadedFile {
  name : string;
  ui_size : Z
}.

(** [validate_file_upload(file)]; [None] is no file. The size is looked at
    first, then the extension. *)
Definition validate_file_upload (file : option UploadedFile) : bool :=
  match file with
  | None => false
  | Some file =>
      let max_size := 10 * 1024 * 1024 in
      if max_size <? ui_size file then false
      else
        let allowed_extensions :=
          [".pdf"; ".docx"; ".png"; ".jpg"; ".jpeg"; ".tiff"; ".bmp"] in
        let file_extension := lower (path_suffix (name file)) in
        if negb (str_in file_extension allowed_extensions) then false
        else true
  end.

End StreamlitUtils.

(* ===================================================================== *)
(** ** The life of the application *)
(* ===================================================================== *)

Import Endpoints.

(** What can happen to the application: an upload, a run of the background
    task (under whatever the global [workflow_instance] is then), or a
    deletion (whatever the operating system answers to it). The reading
    endpoints change nothing. *)
Inductive app_step (uuid4 : nat -> string) : App -> App -> Prop :=
| step_upload file dt a r a' :
    upload_document uuid4 file dt a = (r, a') -> app_step uuid4 a a'
| step_background wi j fp dt a r a' :
    process_document_background wi j fp dt a = (r, a') -> app_step uuid4 a a'
| step_delete os_error j a r a' :
    delete_job os_error j a = (r, a') -> app_step uuid4 a a'.

(** The states the application can be in, from an empty job store. *)
Inductive reachable (uuid4 : nat -> string) : App -> Prop :=
| reach_start d n t : reachable uuid4 (mkApp ∅ d n t)
| reach_step a a' : reachable uuid4 a -> app_step uuid4 a a' -> reachable uuid4 a'.

(** A record as the store holds it: filed under its own id, never
    [processing], untouched while pending, and with a message once
    failed. *)
Definition record_ok (j : string) (s : ProcessingState) : Prop :=
  job_id s = j /\
  processing_status s <> processing /\
  (processing_status s = pending ->
   extracted_text s = None /\ structured_data s = None /\ pdf_path s = None /\
   error_message s = None /\ retry_count s = 0) /\
  (processing_status s = failed -> exists m, error_message s = Some m).

(** The key under which a node files its entry in [processing_metadata]. *)
Definition metadata_key (n : Node) : string :=
  match n with
  | validate_document => "validation"
  | process_document_n => "document_processing"
  | extract_data => "extraction"
  | generate_pdf => "pdf_generation"
  | handle_error => "error_handling"
  end.

(** The report path [PDFGenerator] uses for a job. *)
Definition report_path (document_type : DocumentType) (job_id : string) : string :=
  PDFGenerator.output_dir +:+ "/" +:+ DocumentType_str document_type
  +:+ "_" +:+ job_id +:+ ".pdf".


(** The state and the disk a node leaves. *)
Definition after (sv : Services) (n : Node) (d : disk) (s : ProcessingState)
    : ProcessingState * disk :=
  let h := (node_action sv n (mkHeap d s)).2 in (state h, files h).

Definition is_failed (s : ProcessingState) : bool :=
  Status_eqb (processing_status s) failed.

(** The run of the graph written out along its edges, without fuel: the
    nodes run with the states they return, and the disk at the end. *)
Definition graph_trace (sv : Services) (input : ProcessingState) (d : disk)
    : list (Node * ProcessingState) * disk :=
  let '(s1, d1) := after sv validate_document d input in
  if is_failed s1 then
    let '(sh, dh) := after sv handle_error d1 s1 in
    ([(validate_document, s1); (handle_error, sh)], dh)
  else
    let '(s2, d2) := after sv process_document_n d1 s1 in
    if is_failed s2 then
      let '(sh, dh) := after sv handle_error d2 s2 in
      ([(validate_document, s1); (process_document_n, s2); (handle_error, sh)], dh)
    else
      let '(s3, d3) := after sv extract_data d2 s2 in
      if is_failed s3 then
        let '(sh, dh) := after sv handle_error d3 s3 in
        ([(validate_document, s1); (process_document_n, s2); (extract_data, s3);
          (handle_error, sh)], dh)
      else
        let '(s4, d4) := after sv generate_pdf d3 s3 in
        ([(validate_document, s1); (process_document_n, s2); (extract_data, s3);
          (generate_pdf, s4)], d4).

(** The number of records of a list in a given status. *)
Definition count_of (st : Status) (l : list ProcessingState) : Z :=
  Z.of_nat (length (List.filter (fun s => Status_eqb (processing_status s) st) l)).

(** *** What the checkpointer can write *)

(** The graph is compiled with a [MemorySaver], which writes the state
    after every step and needs its integers to fit in 64 bits. *)
Definition int64 (z : Z) : bool := (- 2 ^ 63 <=? z) && (z <? 2 ^ 63).

Fixpoint packable (v : pyval) : bool :=
  match v with
  | PInt z => int64 z
  | PDict d =>
      (fix all (l : list (string * pyval)) : bool :=
         match l with
         | [] => true
         | (_, x) :: r => packable x && all r
         end) d
  | _ => true
  end.

(** Services whose values the checkpointer can write: the page count and
    the metadata of a processed document, the record and the model name
    of an extraction. *)
Definition packable_services (sv : Services) : Prop :=
  (forall d fp dt text pc md,
      dp_process_document sv d fp dt = Return (ProcessSuccess text pc md) ->
      packable (default PNone pc) = true /\
      packable (PDict (default [] md)) = true) /\
  (forall text dt data mu,
      es_extract_from_document sv text dt = Return (ExtractSuccess data mu) ->
      packable (PDict data) = true /\ packable (default PNone mu) = true).

(** *** More sample libraries, jobs and ids *)

(** An extraction that succeeds with an empty record. *)
Definition create_empty : option string -> DocumentType -> outcome pydict :=
  fun _ _ => Return [].

Definition sv_empty_extraction : Services :=
  real_services convert_ok create_empty build_ok.

(** A job on a text file, which the processor does not support. *)
Definition job_txt : ProcessingState :=
  mkProcessingState "job-2" employment_contract "uploads/job-2.txt"
    None None pending None None None [] 0.

(** Two different ids from [uuid.uuid4()], then the second again. *)
Definition uuid_seq : nat -> string :=
  fun n =>
    match n with
    | O => "123e4567-e89b-42d3-a456-426614174000"
    | _ => "9b2f0c1e-7d4a-4e8b-b1c3-5a6d7e8f9012"
    end.

(** The sample PDF uploaded to the empty application, and the application
    once the background task has run with libraries that all succeed. *)
Definition app_uploaded : App :=
  (upload_document uuid0 pdf_upload "employment_contract" app0).2.

Definition app_processed : App :=
  (process_document_background (Some sv_ok)
     "123e4567-e89b-42d3-a456-426614174000"
     "uploads/123e4567-e89b-42d3-a456-426614174000.pdf"
     "employment_contract" app_uploaded).2.

(* ===================================================================== *)
(** ** The nodes, one at a time *)
(* ===================================================================== *)

Ltac unfold_node :=
  unfold node_action, _validate_document_node, _process_document_node,
    _extract_data_node, _generate_pdf_node, _handle_error_node,
    try_except, bind, ret, call, raise, get_state, put_state, assign,
    update_status, set_metadata, modify; simpl.

(** Case analysis on whatever the code branches on, innermost first. *)
Ltac split_cases :=
  repeat match goal with
         | |- context [match ?x with _ => _ end] =>
             lazymatch x with
             | context [match _ with _ => _ end] => fail
             | _ => destruct x eqn:?; simpl
             end
         end.

Ltac node_inv H :=
  revert H; unfold_node; split_cases;
  intros H; inversion H; subst; clear H; simpl.

(** Every node returns, and returns the object it was given. *)
Lemma node_returns sv n d s :
  exists s' d', node_action sv n (mkHeap d s) = (Return s', mkHeap d' s').
Proof.
  destruct n; unfold_node; split_cases; eauto.
Qed.

(** The identity of the job is never written; the retry counter is written
    by [handle_error] alone. *)
Lemma node_frame sv n d s r h' :
  node_action sv n (mkHeap d s) = (r, h') ->
  r = Return (state h') /\
  job_id (state h') = job_id s /\
  document_type (state h') = document_type s /\
  file_path (state h') = file_path s /\
  retry_count (state h') =
    match n with
    | handle_error =>
        if retry_count s <? max_retries then retry_count s + 1 else retry_count s
    | _ => retry_count s
    end.
Proof.
  intros H; destruct n; node_inv H; auto.
Qed.

(** The status a node leaves, and what became of the message. *)
Lemma node_status sv n d s r h' :
  node_action sv n (mkHeap d s) = (r, h') ->
  match n with
  | handle_error =>
      processing_status (state h') = failed /\
      error_message (state h') = error_message s
  | generate_pdf =>
      (processing_status (state h') = failed /\
       exists m, error_message (state h') = Some m)
      \/ (processing_status (state h') = completed /\
          error_message (state h') = error_message s)
  | _ =>
      (processing_status (state h') = failed /\
       exists m, error_message (state h') = Some m)
      \/ (processing_status (state h') = processing /\
          error_message (state h') = error_message s)
  end.
Proof.
  intros H; destruct n; node_inv H; eauto.
Qed.

(** The output fields a node leaves alone, the node it records, and the
    disk, which only the renderer touches. *)
Lemma node_outputs sv n d s r h' :
  node_action sv n (mkHeap d s) = (r, h') ->
  current_node (state h') = Some (node_name n) /\
  match n with
  | validate_document =>
      extracted_text (state h') = extracted_text s /\
      structured_data (state h') = structured_data s /\
      pdf_path (state h') = pdf_path s /\ files h' = d
  | process_document_n =>
      structured_data (state h') = structured_data s /\
      pdf_path (state h') = pdf_path s /\ files h' = d
  | extract_data =>
      extracted_text (state h') = extracted_text s /\
      pdf_path (state h') = pdf_path s /\ files h' = d
  | generate_pdf =>
      extracted_text (state h') = extracted_text s /\
      structured_data (state h') = structured_data s
  | handle_error =>
      extracted_text (state h') = extracted_text s /\
      structured_data (state h') = structured_data s /\
      pdf_path (state h') = pdf_path s /\ files h' = d
  end.
Proof.
  intros H; destruct n; node_inv H; auto.
Qed.

(** [completed] comes from the renderer's return value. *)
Lemma generate_pdf_completed sv d s r h' :
  node_action sv generate_pdf (mkHeap d s) = (r, h') ->
  processing_status (state h') = completed ->
  exists data p,
    structured_data s = Some data /\
    pg_generate_pdf sv d data (document_type s) (job_id s) = (Return p, files h') /\
    pdf_path (state h') = Some p.
Proof.
  intros H; node_inv H; intros Hc; try discriminate.
  destruct (structured_data s) as [data|] eqn:Hd; [|discriminate].
  exists data, a; auto.
Qed.

(* ===================================================================== *)
(** ** Runs of the graph *)
(* ===================================================================== *)

Lemma last_cons_default {T} (l : list T) (x d d' : T) :
  List.last (x :: l) d = List.last (x :: l) d'.
Proof.
  revert x; induction l as [|y l IH]; intros x; [reflexivity|].
  change (List.last (y :: l) d = List.last (y :: l) d'). apply IH.
Qed.

Lemma edge_rank n s n' : edge n s = Some n' -> (rank n' < rank n)%nat.
Proof.
  destruct n; simpl;
    unfold _should_continue_after_validation, _should_continue_after_processing,
      _should_continue_after_extraction;
    try destruct (negb _); intros [= <-]; simpl; lia.
Qed.

(** With fuel for the longest path, the graph runs to [END]. *)
Lemma run_exec sv fuel :
  forall n s h,
    (rank n <= fuel)%nat ->
    exists tr d',
      run sv fuel n s h = (Return tr, mkHeap d' (List.last (map snd tr) s)) /\
      exec sv n s (files h) tr d'.
Proof.
  induction fuel as [|fuel IH]; intros n s h Hr.
  - destruct n; simpl in Hr; lia.
  - destruct (node_returns sv n (files h) s) as (s' & d' & Hn).
    simpl. unfold bind at 1. unfold put_state, modify. unfold bind at 1.
    rewrite Hn.
    destruct (edge n s') as [n'|] eqn:He.
    + destruct (IH n' s' (mkHeap d' s')) as (tr & d'' & Hrun & Hex).
      { apply edge_rank in He. lia. }
      unfold bind at 1. rewrite Hrun. unfold ret.
      exists ((n, s') :: tr), d''. split.
      * f_equal. f_equal. simpl map.
        destruct tr as [|p tr]; [inversion Hex|].
        exact (last_cons_default (map snd tr) (snd p) s' s).
      * eapply exec_next; eauto.
    + unfold ret. exists [(n, s')], d'. split; [reflexivity|].
      apply exec_last; auto.
Qed.

(** An invariant of the edges holds of every state a run produces. *)
Lemma exec_inv sv (I P : Node -> ProcessingState -> Prop) :
  (forall n d s s' d',
      I n s ->
      node_action sv n (mkHeap d s) = (Return s', mkHeap d' s') ->
      P n s' /\ forall n', edge n s' = Some n' -> I n' s') ->
  forall n s d tr d',
    exec sv n s d tr d' -> I n s -> Forall (fun p => P p.1 p.2) tr.
Proof.
  intros Hstep n s d tr d' Hex.
  induction Hex as [n s d s' d' Hn He | n s d s' d' n' tr d'' Hn He Hex IH];
    intros Hi; destruct (Hstep _ _ _ _ _ Hi Hn) as [HP Hnext].
  - constructor; auto.
  - constructor; auto.
Qed.

(** The last state of a run goes through [ProcessingState]'s checks; a
    state they refuse is answered from the handler. *)
Lemma process_document_spec sv input h :
  exists tr d',
    exec sv START input (files h) tr d' /\
    let result := List.last (map snd tr) input in
    process_document sv input h =
      match check_fields result with
      | Return final => (Return final, mkHeap d' result)
      | Raise e =>
          (Return (workflow_error_state input e),
           mkHeap d' (workflow_error_state input e))
      end.
Proof.
  destruct (run_exec sv recursion_limit START input h) as (tr & d' & Hrun & Hex).
  { simpl. unfold recursion_limit. lia. }
  exists tr, d'. split; [exact Hex|].
  cbv zeta. unfold process_document, invoke, try_except.
  unfold bind at 1. unfold bind at 1. rewrite Hrun.
  unfold ret at 1. unfold bind, call.
  destruct (check_fields _); reflexivity.
Qed.

Lemma check_fields_Return s f : check_fields s = Return f -> f = s.
Proof.
  unfold check_fields.
  destruct (String.eqb (job_id s) ""); [discriminate|].
  destruct (String.eqb (file_path s) ""); [discriminate|].
  now intros [= <-].
Qed.

(** The state a run ends with is one of those its nodes returned. *)
Lemma exec_result_in sv n s d tr d' :
  exec sv n s d tr d' -> exists m, In (m, List.last (map snd tr) s) tr.
Proof.
  intros Hex; revert s d d' n Hex.
  induction tr as [|[m x] tr IH]; intros s d d' n Hex; [inversion Hex|].
  inversion Hex; subst.
  - exists m; now left.
  - destruct tr as [|q tr]; [match goal with H : exec _ _ _ _ [] _ |- _ => inversion H end|].
    match goal with H : exec _ _ _ _ (q :: tr) _ |- _ =>
      destruct (IH _ _ _ _ H) as (m' & Hin) end.
    exists m'. right.
    change (List.last (map snd ((m, x) :: q :: tr)) s)
      with (List.last (snd q :: map snd tr) s).
    rewrite (last_cons_default (map snd tr) (snd q) s x). exact Hin.
Qed.

(** Along a run the retry counter never goes down and stays under any
    bound that is at least [max_retries] and that it started under. *)
Lemma exec_retry sv n s d tr d' :
  exec sv n s d tr d' ->
  forall B, max_retries <= B -> retry_count s <= B ->
    nondecreasing (retry_count s) (map (fun p => retry_count p.2) tr) /\
    Forall (fun p => retry_count s <= retry_count p.2 <= B) tr.
Proof.
  assert (Hstep : forall n d s s' d' B,
             node_action sv n (mkHeap d s) = (Return s', mkHeap d' s') ->
             max_retries <= B -> retry_count s <= B ->
             retry_count s <= retry_count s' <= B).
  { intros n0 d0 s0 s0' d0' B Hn HB Hs.
    destruct (node_frame _ _ _ _ _ _ Hn) as (_ & _ & _ & _ & Hrc).
    simpl in Hrc. rewrite Hrc. unfold max_retries in *.
    destruct n0; try lia.
    destruct (retry_count s0 <? 3) eqn:Hlt; [apply Z.ltb_lt in Hlt|]; lia. }
  induction 1 as [n s d s' d' Hn He | n s d s' d' n' tr d'' Hn He Hex IH];
    intros B HB Hs; pose proof (Hstep _ _ _ _ _ B Hn HB Hs) as Hb.
  - simpl. split; [split; [lia|exact I]|]. constructor; [simpl; lia|constructor].
  - destruct (IH B HB ltac:(lia)) as [Hnd Hall]. split.
    + simpl. split; [lia|exact Hnd].
    + constructor; [simpl; lia|].
      eapply Forall_impl; [exact Hall|]. simpl. intros p Hp. lia.
Qed.

(** A run that ends [completed] ends at the renderer: the report path is
    the one it returned for this job, on the disk it left. *)
Lemma exec_completed sv n s d tr d' :
  exec sv n s d tr d' ->
  processing_status (List.last (map snd tr) s) = completed ->
  exists d0 data p,
    pg_generate_pdf sv d0 data (document_type s) (job_id s) = (Return p, d') /\
    pdf_path (List.last (map snd tr) s) = Some p.
Proof.
  induction 1 as [n s d s' d' Hn He | n s d s' d' n' tr d'' Hn He Hex IH];
    intros Hc.
  - simpl in Hc |- *. destruct n; simpl in He;
      unfold _should_continue_after_validation, _should_continue_after_processing,
        _should_continue_after_extraction in He;
      try (destruct (negb _); discriminate).
    + change s' with (state (mkHeap d' s')) in Hc.
      destruct (generate_pdf_completed _ _ _ _ _ Hn Hc) as (data & p & _ & Hg & Hp).
      exists d, data, p. auto.
    + pose proof (node_status _ _ _ _ _ _ Hn) as [Hf _]. simpl in Hf. congruence.
  - destruct tr as [|q tr]; [inversion Hex|].
    change (List.last (map snd ((n, s') :: q :: tr)) s)
      with (List.last (snd q :: map snd tr) s) in *.
    rewrite (last_cons_default (map snd tr) (snd q) s s') in *.
    destruct (IH Hc) as (d0 & data & p & Hg & Hp).
    destruct (node_frame _ _ _ _ _ _ Hn) as (_ & Hj & Hdt & _).
    simpl in Hj, Hdt. rewrite Hj, Hdt in Hg. eauto.
Qed.

(** Every state a run produces has a message when it is [failed]. *)
Lemma exec_failed_has_message sv n s d tr d' :
  exec sv n s d tr d' ->
  (n = handle_error -> exists m, error_message s = Some m) ->
  Forall (fun p => failed_has_message p.2) tr.
Proof.
  intros Hex Hi.
  apply (exec_inv sv
           (fun n s => n = handle_error -> exists m, error_message s = Some m)
           (fun _ s => failed_has_message s)) with (n := n) (s := s) (d := d) (d' := d');
    auto.
  clear. intros n d s s' d' Hi Hn.
  pose proof (node_status _ _ _ _ _ _ Hn) as Hs. simpl in Hs.
  assert (Hm : failed_has_message s').
  { unfold failed_has_message.
    destruct n; try (destruct Hs as [[_ Hm]|[Hp _]]; [auto|congruence]).
    destruct Hs as [_ Hm]. rewrite Hm. auto. }
  split; [exact Hm|].
  intros n' He Hn'. subst n'.
  destruct n; simpl in He;
    unfold _should_continue_after_validation, _should_continue_after_processing,
      _should_continue_after_extraction in He;
    try discriminate;
    destruct (processing_status s') eqn:Hst; simpl in He; try discriminate;
    apply Hm; exact Hst.
Qed.

(** An exception at a step's boundary ends up in the job's fields. *)
Lemma node_raise sv n d s r h' :
  node_action sv n (mkHeap d s) = (r, h') -> raise_converted sv n d s (state h').
Proof.
  intros H; destruct n; unfold raise_converted, failed_with; simpl.
  - node_inv H; auto.
  - node_inv H; auto.
  - node_inv H; auto.
  - destruct (structured_data s) as [[|kv data]|] eqn:Hd.
    + revert H; unfold_node; rewrite Hd; simpl; intros [= <- <-]; auto.
    + revert H; unfold_node; rewrite Hd; simpl.
      destruct (pg_generate_pdf sv d (kv :: data) (document_type s) (job_id s))
        as [[p|e] d1]; simpl; intros [= <- <-]; auto.
    + revert H; unfold_node; rewrite Hd; simpl; intros [= <- <-]; auto.
  - exact I.
Qed.

(** A run keeps the identity of the job, and its handler runs at most
    once, as the last node. *)
Lemma exec_frame sv n s d tr d' :
  exec sv n s d tr d' ->
  let s' := List.last (map snd tr) s in
  job_id s' = job_id s /\ document_type s' = document_type s /\
  file_path s' = file_path s /\ retry_count s' <= retry_count s + 1.
Proof.
  induction 1 as [n s d s' d' Hn He | n s d s' d' n' tr d'' Hn He Hex IH];
    destruct (node_frame _ _ _ _ _ _ Hn) as (_ & Hj & Hdt & Hfp & Hrc);
    simpl in Hj, Hdt, Hfp, Hrc.
  - simpl. repeat split; auto. rewrite Hrc.
    destruct n; try lia. destruct (retry_count s <? max_retries); lia.
  - destruct tr as [|q tr]; [inversion Hex|].
    cbv zeta in IH |- *.
    change (List.last (map snd ((n, s') :: q :: tr)) s)
      with (List.last (snd q :: map snd tr) s).
    rewrite (last_cons_default (map snd tr) (snd q) s s').
    change (map snd (q :: tr)) with (snd q :: map snd tr) in IH.
    destruct IH as (Hj' & Hdt' & Hfp' & Hrc').
    repeat split; try congruence.
    destruct n; simpl in He, Hrc; try discriminate; lia.
Qed.

(** What [process_document] returns, in one place. *)
Lemma process_document_result sv input h r h' :
  process_document sv input h = (r, h') ->
  exists s,
    r = Return s /\
    failed_has_message s /\
    job_id s = job_id input /\ document_type s = document_type input /\
    file_path s = file_path input /\
    retry_count input <= retry_count s <= Z.max (retry_count input) max_retries /\
    retry_count s <= retry_count input + 1 /\
    (processing_status s = completed ->
     exists d0 data p,
       pg_generate_pdf sv d0 data (document_type input) (job_id input)
         = (Return p, files h') /\
       pdf_path s = Some p).
Proof.
  destruct (process_document_spec sv input h) as (tr & d' & Hex & Hpd).
  cbv zeta in Hpd. rewrite Hpd. clear Hpd.
  pose proof (exec_frame _ _ _ _ _ _ Hex) as (Hj & Hdt & Hfp & Hone).
  destruct (exec_result_in _ _ _ _ _ _ Hex) as (m & Hin).
  pose proof (exec_failed_has_message _ _ _ _ _ _ Hex ltac:(discriminate)) as Hmsg.
  pose proof (exec_retry _ _ _ _ _ _ Hex (Z.max (retry_count input) max_retries)
                ltac:(lia) ltac:(lia)) as [_ Hrc].
  rewrite List.Forall_forall in Hmsg, Hrc.
  specialize (Hmsg _ Hin). specialize (Hrc _ Hin). simpl in Hmsg, Hrc.
  destruct (check_fields _) as [f|e] eqn:Hcf; intros [= <- <-].
  - apply check_fields_Return in Hcf. subst f.
    eexists; split; [reflexivity|]. repeat split; auto; try lia.
    intros Hc. apply (exec_completed _ _ _ _ _ _ Hex Hc).
  - eexists; split; [reflexivity|]. unfold workflow_error_state.
    repeat split; simpl; try lia.
    + intros _. eauto.
    + discriminate.
Qed.

Lemma new_ProcessingState_cases j dt fp :
  (exists e, forall st em, new_ProcessingState j dt fp st em = Raise e) \/
  (exists dtv, forall st em,
      new_ProcessingState j dt fp st em
      = Return (mkProcessingState j dtv fp None None st em None None [] 0)).
Proof.
  unfold new_ProcessingState, check_fields.
  destruct (DocumentType_of_str dt) as [dtv|]; [|left; eauto]. simpl.
  destruct (String.eqb j ""); [left; eauto|].
  destruct (String.eqb fp ""); [left; eauto|].
  right; eauto.
Qed.

(** The background task either stores one record for its job, or (on
    arguments no [ProcessingState] can be built from) raises and leaves
    the application as it was. *)
Lemma background_spec wi j fp dt a :
  (exists e,
      (forall st em, new_ProcessingState j dt fp st em = Raise e) /\
      process_document_background wi j fp dt a = (Raise e, a)) \/
  (exists dtv s d',
      process_document_background wi j fp dt a
      = (Return tt,
         mkApp (<[j := s]> (job_storage a)) d' (uuid_calls a) (background_tasks a))
      /\
      let init := mkProcessingState j dtv fp None None pending None None None [] 0 in
      match wi with
      | None =>
          s = mkProcessingState j dtv fp None None failed
                (Some "'NoneType' object has no attribute 'process_document'")
                None None [] 0
          /\ d' = app_files a
      | Some sv =>
          exists h',
            process_document sv init (mkHeap (app_files a) init) = (Return s, h')
            /\ d' = files h'
      end).
Proof.
  unfold process_document_background, try_except.
  destruct (new_ProcessingState_cases j dt fp) as [[e He]|[dtv Hok]].
  - left. exists e. split; [exact He|]. unfold bind at 1. unfold call. rewrite He.
    unfold bind, call. rewrite He. destruct a; reflexivity.
  - right. exists dtv. unfold bind at 1. unfold call at 1. rewrite Hok.
    destruct wi as [sv|].
    + destruct (process_document sv
                  (mkProcessingState j dtv fp None None pending None None None [] 0)
                  (mkHeap (app_files a)
                     (mkProcessingState j dtv fp None None pending None None None [] 0)))
        as [r h'] eqn:Hpd.
      destruct (process_document_result _ _ _ _ _ Hpd) as (s & -> & _).
      exists s, (files h'). split.
      * unfold bind, in_workflow. rewrite Hpd. reflexivity.
      * cbv zeta. exists h'. auto.
    + eexists _, (app_files a). split.
      * unfold bind, raise, call. rewrite Hok. simpl. reflexivity.
      * cbv zeta. auto.
Qed.

Lemma real_renderer_writes convert create build :
  renderer_writes (real_services convert create build).
Proof.
  intros d data dt j p d'. simpl. unfold PDFGenerator.generate_pdf.
  destruct (build _ data); intros [= <- <-]; now left.
Qed.

(* ===================================================================== *)
(** ** The error handler and the routing (C1, C2) *)
(* ===================================================================== *)

(** C1, as the code has it: below the maximum the error handler increments
    [retry_count] and sets the status to pending, but it then sets the status
    to failed in every case and the run ends there; no run is restarted. One
    call of [process_document] adds at most one to [retry_count], and a job
    whose structured extraction always fails ends failed after a single
    attempt with [retry_count] 1, not 3. *)
Theorem error_handler_fails_at_once :
  (forall d s, exists s',
      _handle_error_node (mkHeap d s) = (Return s', mkHeap d s') /\
      processing_status s' = failed /\
      retry_count s' =
        (if retry_count s <? max_retries then retry_count s + 1 else retry_count s) /\
      edge handle_error s' = None) /\
  (forall sv input h, exists s h',
      process_document sv input h = (Return s, h') /\
      retry_count s <= retry_count input + 1) /\
  match process_document sv_extract_fails job0 heap0 with
  | (Return s, _) =>
      processing_status s = failed /\ retry_count s = 1 /\
      error_message s = Some "Data extraction failed: model unavailable"
  | (Raise _, _) => False
  end.
Proof.
  split; [|split].
  - intros d s. unfold_node.
    destruct (retry_count s <? max_retries); simpl; eexists; repeat split.
  - intros sv input h.
    destruct (process_document sv input h) as [r h'] eqn:Hpd.
    destruct (process_document_result _ _ _ _ _ Hpd) as (s & -> & Hs).
    exists s, h'. split; [reflexivity|]. tauto.
  - vm_compute. auto.
Qed.

(** C2, as the code has it: a failed state returned by validation, text
    extraction or structured extraction is routed to the error handler, but
    the edge out of [generate_pdf] goes to [END] whatever the state, so a
    failure of the rendering step ends the run without the error handler: with a renderer that raises, the run is
    validate, process, extract, generate_pdf, and the job ends failed with
    [retry_count] still 0. *)
Theorem render_failure_ends_run :
  (forall s,
      edge validate_document s
      = Some (if Status_eqb (processing_status s) failed then handle_error
              else process_document_n) /\
      edge process_document_n s
      = Some (if Status_eqb (processing_status s) failed then handle_error
              else extract_data) /\
      edge extract_data s
      = Some (if Status_eqb (processing_status s) failed then handle_error
              else generate_pdf)) /\
  (forall s, edge generate_pdf s = None) /\
  match run sv_render_fails recursion_limit START job0 heap0 with
  | (Return tr, _) =>
      map fst tr
      = [validate_document; process_document_n; extract_data; generate_pdf] /\
      processing_status (List.last (map snd tr) job0) = failed /\
      error_message (List.last (map snd tr) job0)
      = Some "PDF generation error: disk full" /\
      retry_count (List.last (map snd tr) job0) = 0
  | (Raise _, _) => False
  end.
Proof.
  split; [|split; [reflexivity|vm_compute; auto]].
  intros s. unfold edge, _should_continue_after_validation,
    _should_continue_after_processing, _should_continue_after_extraction.
  destruct (Status_eqb (processing_status s) failed); auto.
Qed.

(* ===================================================================== *)
(** ** Invariants of the job record (C4, C5, C6) *)
(* ===================================================================== *)

(** C4: [retry_count] starts at 0 in every record that is built; only the
    error handler changes it, and only by adding one while it is below 3;
    along a run of the graph, and from the input to the result of
    [process_document], it never decreases and never exceeds 3 (having
    started no higher); the record the background task stores has a
    [retry_count] between 0 and 3. *)
Theorem retry_count_monotone_bounded :
  (forall j dt fp st em,
      match new_ProcessingState j dt fp st em with
      | Return s => retry_count s = 0
      | Raise _ => True
      end) /\
  (forall sv n d s, exists s' d',
      node_action sv n (mkHeap d s) = (Return s', mkHeap d' s') /\
      retry_count s' =
        match n with
        | handle_error =>
            if retry_count s <? max_retries then retry_count s + 1
            else retry_count s
        | _ => retry_count s
        end /\
      retry_count s <= retry_count s' <= Z.max (retry_count s) max_retries) /\
  (forall sv input h, exists tr h',
      run sv recursion_limit START input h = (Return tr, h') /\
      nondecreasing (retry_count input) (map (fun p => retry_count p.2) tr) /\
      Forall (fun p => retry_count p.2 <= Z.max (retry_count input) max_retries) tr) /\
  (forall sv input h, exists s h',
      process_document sv input h = (Return s, h') /\
      retry_count input <= retry_count s <= Z.max (retry_count input) max_retries) /\
  (forall wi j fp dt a,
      match process_document_background wi j fp dt a with
      | (Return _, a') =>
          exists s, job_storage a' !! j = Some s /\ 0 <= retry_count s <= max_retries
      | (Raise _, a') => a' = a
      end).
Proof.
  repeat apply conj.
  - intros j dt fp st em.
    destruct (new_ProcessingState_cases j dt fp) as [[e He]|[dtv Hok]].
    + now rewrite He.
    + now rewrite Hok.
  - intros sv n d s.
    destruct (node_returns sv n d s) as (s' & d' & Hn).
    exists s', d'. split; [exact Hn|].
    destruct (node_frame _ _ _ _ _ _ Hn) as (_ & _ & _ & _ & Hrc).
    simpl in Hrc. split; [exact Hrc|]. rewrite Hrc. unfold max_retries.
    destruct n; try lia.
    destruct (retry_count s <? 3) eqn:Hlt; [apply Z.ltb_lt in Hlt|]; lia.
  - intros sv input h.
    destruct (run_exec sv recursion_limit START input h) as (tr & d' & Hrun & Hex).
    { simpl; unfold recursion_limit; lia. }
    eexists tr, _. split; [exact Hrun|].
    destruct (exec_retry _ _ _ _ _ _ Hex (Z.max (retry_count input) max_retries)
                ltac:(lia) ltac:(lia)) as [Hnd Hall].
    split; [exact Hnd|].
    eapply Forall_impl; [exact Hall|]. simpl. intros p Hp. lia.
  - intros sv input h.
    destruct (process_document sv input h) as [r h'] eqn:Hpd.
    destruct (process_document_result _ _ _ _ _ Hpd) as (s & -> & Hs).
    exists s, h'. split; [reflexivity|]. tauto.
  - intros wi j fp dt a.
    destruct (background_spec wi j fp dt a) as [(e & _ & ->)|(dtv & s & d' & -> & Hs)];
      [reflexivity|].
    exists s. simpl. split; [apply lookup_insert_eq|].
    cbv zeta in Hs. destruct wi as [sv|].
    + destruct Hs as (h' & Hpd & _).
      destruct (process_document_result _ _ _ _ _ Hpd) as (s1 & [= <-] & Hs1).
      simpl in Hs1. unfold max_retries in *. lia.
    + destruct Hs as [-> _]. simpl. unfold max_retries. lia.
Qed.

(** C5: whenever a state is failed it carries an error message. This holds
    of every state a step node returns, of every state a node returns in a
    run of the graph from any input (the error handler keeps the message of
    the step that sent the job to it), of what [process_document] returns,
    and of the record the background task stores. *)
Theorem failed_has_error_message :
  (forall sv n d s, exists s' d',
      node_action sv n (mkHeap d s) = (Return s', mkHeap d' s') /\
      match n with
      | handle_error => error_message s' = error_message s
      | _ => failed_has_message s'
      end) /\
  (forall sv input h, exists tr h',
      run sv recursion_limit START input h = (Return tr, h') /\
      Forall (fun p => failed_has_message p.2) tr) /\
  (forall sv input h, exists s h',
      process_document sv input h = (Return s, h') /\ failed_has_message s) /\
  (forall wi j fp dt a,
      match process_document_background wi j fp dt a with
      | (Return _, a') =>
          exists s, job_storage a' !! j = Some s /\ failed_has_message s
      | (Raise _, a') => a' = a
      end).
Proof.
  repeat apply conj.
  - intros sv n d s.
    destruct (node_returns sv n d s) as (s' & d' & Hn).
    exists s', d'. split; [exact Hn|].
    pose proof (node_status _ _ _ _ _ _ Hn) as Hs. simpl in Hs.
    unfold failed_has_message.
    destruct n; try (destruct Hs as [[_ Hm]|[Hp _]]; [auto|congruence]).
    tauto.
  - intros sv input h.
    destruct (run_exec sv recursion_limit START input h) as (tr & d' & Hrun & Hex).
    { simpl; unfold recursion_limit; lia. }
    eexists tr, _. split; [exact Hrun|].
    apply (exec_failed_has_message _ _ _ _ _ _ Hex). discriminate.
  - intros sv input h.
    destruct (process_document sv input h) as [r h'] eqn:Hpd.
    destruct (process_document_result _ _ _ _ _ Hpd) as (s & -> & Hs).
    exists s, h'. split; [reflexivity|]. tauto.
  - intros wi j fp dt a.
    destruct (background_spec wi j fp dt a) as [(e & _ & ->)|(dtv & s & d' & -> & Hs)];
      [reflexivity|].
    exists s. simpl. split; [apply lookup_insert_eq|].
    cbv zeta in Hs. destruct wi as [sv|].
    + destruct Hs as (h' & Hpd & _).
      destruct (process_document_result _ _ _ _ _ Hpd) as (s1 & [= <-] & Hs1).
      tauto.
    + destruct Hs as [-> _]. intros _. simpl. eauto.
Qed.

(** C6: given a renderer whose returned path exists when it returns, a
    state is completed only as the result of the [generate_pdf] node, after
    that node has put the renderer's return value in [pdf_path]; no other
    node returns a completed state. So a completed result of
    [process_document], and a completed record stored by the background
    task, has [pdf_path] set to the path the renderer returned for this job,
    and that file is on the disk at that moment. *)
Theorem completed_has_report sv (Hw : renderer_writes sv) :
  (forall n d s, exists s' d',
      node_action sv n (mkHeap d s) = (Return s', mkHeap d' s') /\
      match n with
      | generate_pdf =>
          processing_status s' = completed ->
          exists data p,
            structured_data s = Some data /\
            pg_generate_pdf sv d data (document_type s) (job_id s) = (Return p, d') /\
            pdf_path s' = Some p /\ In p d'
      | _ => processing_status s' <> completed
      end) /\
  (forall input h, exists s h',
      process_document sv input h = (Return s, h') /\
      (processing_status s = completed ->
       exists d0 data p,
         pg_generate_pdf sv d0 data (document_type input) (job_id input)
           = (Return p, files h') /\
         pdf_path s = Some p /\ In p (files h'))) /\
  (forall j fp dt a,
      match process_document_background (Some sv) j fp dt a with
      | (Return _, a') =>
          exists s, job_storage a' !! j = Some s /\ report_in_place (app_files a') s
      | (Raise _, a') => a' = a
      end).
Proof.
  repeat apply conj.
  - intros n d s.
    destruct (node_returns sv n d s) as (s' & d' & Hn).
    exists s', d'. split; [exact Hn|].
    pose proof (node_status _ _ _ _ _ _ Hn) as Hs. simpl in Hs.
    destruct n; try (destruct Hs as [[Hf _]|[Hp _]]; congruence).
    + intros Hc.
      destruct (generate_pdf_completed _ _ _ _ _ Hn Hc) as (data & p & Hd & Hg & Hp).
      simpl in Hg, Hp. exists data, p. repeat split; auto. eapply Hw; eauto.
    + destruct Hs as [Hf _]. congruence.
  - intros input h.
    destruct (process_document sv input h) as [r h'] eqn:Hpd.
    destruct (process_document_result _ _ _ _ _ Hpd) as (s & -> & Hs).
    exists s, h'. split; [reflexivity|].
    intros Hc. destruct Hs as (_ & _ & _ & _ & _ & _ & Hdone).
    destruct (Hdone Hc) as (d0 & data & p & Hg & Hp).
    exists d0, data, p. repeat split; auto. eapply Hw; eauto.
  - intros j fp dt a.
    destruct (background_spec (Some sv) j fp dt a)
      as [(e & _ & ->)|(dtv & s & d' & -> & Hs)]; [reflexivity|].
    exists s. simpl. split; [apply lookup_insert_eq|].
    cbv zeta in Hs. destruct Hs as (h' & Hpd & ->).
    destruct (process_document_result _ _ _ _ _ Hpd) as (s1 & [= <-] & Hs1).
    intros Hc. destruct Hs1 as (_ & _ & _ & _ & _ & _ & Hdone).
    destruct (Hdone Hc) as (d0 & data & p & Hg & Hp).
    exists p. split; [exact Hp|]. eapply Hw; eauto.
Qed.

(** A run with services that all succeed: the job completes, its report
    path is the renderer's and the file is on the disk. *)
Lemma completed_has_report_witness :
  renderer_writes sv_ok /\
  exists s h',
    process_document sv_ok job0 heap0 = (Return s, h') /\
    processing_status s = completed /\
    pdf_path s = Some "generated_pdfs/employment_contract_job-1.pdf" /\
    In "generated_pdfs/employment_contract_job-1.pdf" (files h').
Proof.
  pose proof (real_renderer_writes convert_ok create_ok build_ok) as Hw.
  split; [exact Hw|].
  destruct (completed_has_report sv_ok Hw) as (_ & Hpd & _).
  destruct (Hpd job0 heap0) as (s & h' & Heq & Hdone).
  exists s, h'. split; [exact Heq|].
  assert (Hs : processing_status s = completed
               /\ pdf_path s = Some "generated_pdfs/employment_contract_job-1.pdf").
  { vm_compute in Heq. injection Heq as <- <-. split; reflexivity. }
  destruct Hs as [Hc Hp]. split; [exact Hc|]. split; [exact Hp|].
  destruct (Hdone Hc) as (d0 & data & p & _ & Hp' & Hin).
  rewrite Hp in Hp'. injection Hp' as <-. exact Hin.
Defined.

(* ===================================================================== *)
(** ** Exceptions and frames (C7, C9) *)
(* ===================================================================== *)

(** C7: whatever the state and whatever the collaborators do, every node
    returns a state and [process_document] returns a state; nothing is
    raised. When the collaborator of a step raises, the state the step
    returns is failed and its [error_message] is the step's prefix followed
    by the text of the exception; when the final state is refused by the
    checks of [ProcessingState], [process_document] returns its input marked
    failed with a "Workflow error" message. *)
Theorem no_exception_escapes :
  (forall sv n d s, exists s' d',
      node_action sv n (mkHeap d s) = (Return s', mkHeap d' s') /\
      raise_converted sv n d s s') /\
  (forall sv input h, exists s h',
      process_document sv input h = (Return s, h') /\
      match check_fields input with
      | Raise e =>
          failed_with s ("Workflow error: " +:+ str_exn e) /\
          current_node s = Some "workflow_error"
      | Return _ => True
      end).
Proof.
  split.
  - intros sv n d s.
    destruct (node_returns sv n d s) as (s' & d' & Hn).
    exists s', d'. split; [exact Hn|].
    exact (node_raise _ _ _ _ _ _ Hn).
  - intros sv input h.
    destruct (process_document_spec sv input h) as (tr & d' & Hex & Hpd).
    cbv zeta in Hpd. rewrite Hpd.
    pose proof (exec_frame _ _ _ _ _ _ Hex) as (Hj & _ & Hfp & _).
    assert (Hcf : forall e, check_fields input = Raise e ->
                            check_fields (List.last (map snd tr) input) = Raise e).
    { unfold check_fields. rewrite Hj, Hfp. intros e.
      destruct (String.eqb (job_id input) ""); [auto|].
      destruct (String.eqb (file_path input) ""); [auto|discriminate]. }
    destruct (check_fields input) as [f|e] eqn:Hin.
    + destruct (check_fields (List.last (map snd tr) input)); eauto.
    + rewrite (Hcf e eq_refl). eexists _, _. split; [reflexivity|].
      unfold workflow_error_state, failed_with. simpl. auto.
Qed.

(** The first thing a step does is to mark the job as processing at this
    step: run on a state already marked so, it does the same. *)
Lemma node_marks_first sv n d s :
  n <> handle_error ->
  node_action sv n
    (mkHeap d (Schemas.update_status processing (Some (node_name n)) s))
  = node_action sv n (mkHeap d s).
Proof.
  intros Hn; destruct n; try congruence; unfold_node; reflexivity.
Qed.

(** C9: every step leaves [job_id], [document_type], [file_path] and
    [retry_count] as they were and writes no output field but its own:
    validation none of the three, text extraction only [extracted_text],
    structured extraction only [structured_data], rendering only
    [pdf_path]. The step name is recorded first: the step does the same on
    a state already marked as processing at this step, and whatever its
    collaborator does, the state it returns has [current_node] equal to the
    step's name. The error handler, which is not a step, leaves the output
    fields and the message alone. *)
Theorem step_frame :
  forall sv n d s, exists s' d',
    node_action sv n (mkHeap d s) = (Return s', mkHeap d' s') /\
    job_id s' = job_id s /\
    document_type s' = document_type s /\
    file_path s' = file_path s /\
    current_node s' = Some (node_name n) /\
    match n with
    | handle_error => True
    | _ =>
        node_action sv n
          (mkHeap d (Schemas.update_status processing (Some (node_name n)) s))
        = node_action sv n (mkHeap d s)
    end /\
    match n with
    | validate_document =>
        retry_count s' = retry_count s /\
        extracted_text s' = extracted_text s /\
        structured_data s' = structured_data s /\
        pdf_path s' = pdf_path s
    | process_document_n =>
        retry_count s' = retry_count s /\
        structured_data s' = structured_data s /\
        pdf_path s' = pdf_path s
    | extract_data =>
        retry_count s' = retry_count s /\
        extracted_text s' = extracted_text s /\
        pdf_path s' = pdf_path s
    | generate_pdf =>
        retry_count s' = retry_count s /\
        extracted_text s' = extracted_text s /\
        structured_data s' = structured_data s
    | handle_error =>
        extracted_text s' = extracted_text s /\
        structured_data s' = structured_data s /\
        pdf_path s' = pdf_path s /\
        error_message s' = error_message s
    end.
Proof.
  intros sv n d s.
  destruct (node_returns sv n d s) as (s' & d' & Hn).
  exists s', d'. split; [exact Hn|].
  destruct (node_frame _ _ _ _ _ _ Hn) as (_ & Hj & Hdt & Hfp & Hrc).
  destruct (node_outputs _ _ _ _ _ _ Hn) as (Hcn & Hout).
  pose proof (node_status _ _ _ _ _ _ Hn) as Hst.
  simpl in Hj, Hdt, Hfp, Hrc, Hcn, Hout, Hst.
  repeat (split; [assumption|]). split.
  - destruct n; try exact I; apply node_marks_first; discriminate.
  - destruct n; tauto.
Qed.

(* ===================================================================== *)
(** ** Paths and extensions *)
(* ===================================================================== *)

Lemma uuid_char_not_slash c : uuid_char c = true -> Ascii.eqb c "/"%char = false.
Proof.
  destruct c as [[] [] [] [] [] [] [] []]; vm_compute; congruence.
Qed.

Lemma forallb_uuid_no_slash s :
  forallb uuid_char (list_ascii_of_string s) = true -> no_slash s = true.
Proof.
  induction s as [|c r IH]; simpl; [reflexivity|].
  intros H. apply andb_prop in H as [Hc Hr].
  rewrite (uuid_char_not_slash c Hc). simpl. auto.
Qed.

Lemma is_uuid_shape j :
  is_uuid j = true -> String.eqb j "" = false /\ no_slash j = true.
Proof.
  unfold is_uuid. intros H. apply andb_prop in H as [Hl Hc].
  split; [|apply forallb_uuid_no_slash; exact Hc].
  destruct j; [discriminate|reflexivity].
Qed.

Lemma split_slash_no_slash s : no_slash s = true -> split_slash s = [s].
Proof.
  induction s as [|c r IH]; simpl; [reflexivity|].
  intros H. apply andb_prop in H as [Hc Hr].
  destruct (Ascii.eqb c "/"%char); [discriminate|].
  rewrite (IH Hr). reflexivity.
Qed.

Lemma no_slash_app s t :
  no_slash s = true -> no_slash t = true -> no_slash (s +:+ t) = true.
Proof.
  induction s as [|c r IH]; simpl; [auto|].
  intros H Ht. apply andb_prop in H as [Hc Hr].
  rewrite Hc. simpl. auto.
Qed.

Lemma length_app_str s t :
  String.length (s +:+ t) = (String.length s + String.length t)%nat.
Proof. induction s as [|c r IH]; simpl; [reflexivity|]. now rewrite IH. Qed.

Lemma rfind_dot_app s t i :
  rfind_dot t = Some i -> rfind_dot (s +:+ t) = Some (String.length s + i)%nat.
Proof.
  intros Ht. induction s as [|c r IH]; simpl; [exact Ht|]. now rewrite IH.
Qed.

Lemma substring_all s : String.substring 0 (String.length s) s = s.
Proof. induction s as [|c r IH]; simpl; [reflexivity|]. now rewrite IH. Qed.

Lemma substring_app_drop s t :
  String.substring (String.length s) (String.length t) (s +:+ t) = t.
Proof.
  induction s as [|c r IH]; simpl; [apply substring_all|exact IH].
Qed.

(** The name of a file stored under the upload directory. *)
Lemma path_name_upload x :
  no_slash x = true -> (2 <= String.length x)%nat ->
  path_name (UPLOAD_DIR +:+ "/" +:+ x) = x.
Proof.
  intros Hx Hl. unfold path_name, path_parts, UPLOAD_DIR.
  assert (Hs : split_slash ("uploads" +:+ "/" +:+ x) = ["uploads"; x]).
  { simpl. change ("" +:+ x) with x.
    rewrite (split_slash_no_slash x Hx). reflexivity. }
  rewrite Hs.
  destruct x as [|c1 [|c2 r]]; simpl in Hl; try lia.
  simpl. destruct (Ascii.eqb c1 "."%char); reflexivity.
Qed.

(** The suffix of a stored file is the extension it was stored with. *)
Lemma path_suffix_upload j ext :
  String.eqb j "" = false -> no_slash j = true ->
  no_slash ext = true -> rfind_dot ext = Some 0%nat ->
  (2 <= String.length ext)%nat ->
  path_suffix (UPLOAD_DIR +:+ "/" +:+ j +:+ ext) = ext.
Proof.
  intros Hj Hns Hne Hdot Hl. unfold path_suffix.
  rewrite path_name_upload;
    [|now apply no_slash_app|rewrite length_app_str; lia].
  rewrite (rfind_dot_app j ext 0 Hdot), length_app_str.
  assert (Hjl : (0 < String.length j)%nat) by (destruct j; [discriminate|simpl; lia]).
  replace ((0 <? String.length j + 0)%nat
           && (String.length j + 0 <? String.length j + String.length ext - 1)%nat)
    with true.
  - replace (String.length j + String.length ext - (String.length j + 0))%nat
      with (String.length ext) by lia.
    replace (String.length j + 0)%nat with (String.length j) by lia.
    apply substring_app_drop.
  - symmetry. apply andb_true_intro. split; apply Nat.ltb_lt; lia.
Qed.

(** Each allowed extension is a dot and a supported format. *)
Lemma allowed_extension_supported ext :
  str_in ext ALLOWED_EXTENSIONS = true ->
  (no_slash ext = true) /\ (rfind_dot ext = Some 0%nat) /\
  (2 <= String.length ext)%nat /\
  (str_in (lstrip_dot (lower ext)) DocumentProcessor.get_supported_formats = true).
Proof.
  unfold str_in, ALLOWED_EXTENSIONS. simpl existsb.
  intros H.
  repeat (apply orb_prop in H as [H|H];
          [apply String.eqb_eq in H; subst ext; vm_compute; repeat split; lia|]).
  discriminate.
Qed.

Lemma upload_path_supported j ext :
  is_uuid j = true -> str_in ext ALLOWED_EXTENSIONS = true ->
  DocumentProcessor.validate_file_format (UPLOAD_DIR +:+ "/" +:+ j +:+ ext) = true.
Proof.
  intros Hj He.
  destruct (is_uuid_shape j Hj) as [Hne Hns].
  destruct (allowed_extension_supported ext He) as (Hs & Hd & Hl & Hin).
  unfold DocumentProcessor.validate_file_format.
  rewrite (path_suffix_upload j ext Hne Hns Hs Hd Hl). exact Hin.
Qed.

(* ===================================================================== *)
(** ** The upload endpoint *)
(* ===================================================================== *)

Ltac unfold_api :=
  unfold upload_document, validate_file_upload, save_uploaded_file, new_job_id,
    new_ProcessingState, check_fields, try_except, bind, call, raise, ret,
    write_file, add_task, store, modify.

(** What a successful upload has done. *)
Lemma upload_success uuid4 file dt a resp a1 :
  upload_document uuid4 file dt a = (Return resp, a1) ->
  let jid := uuid4 (uuid_calls a) in
  let ext := lower (path_suffix (default "" (filename file))) in
  let path := UPLOAD_DIR +:+ "/" +:+ jid +:+ ext in
  early_reject file dt = false /\
  exists dtv,
    DocumentType_of_str dt = Some dtv /\
    String.eqb jid "" = false /\
    resp = mkUploadResponse jid
             "Document uploaded successfully. Processing started." path /\
    a1 = mkApp (<[jid := mkProcessingState jid dtv path None None pending None
                           None None [] 0]> (job_storage a))
           (path :: app_files a) (S (uuid_calls a))
           (background_tasks a ++ [(jid, path, dt)]).
Proof.
  cbv zeta. unfold early_reject. unfold_api.
  destruct (str_in dt _); cbn [negb]; [|discriminate].
  destruct (truthy_str (filename file)); cbn [negb]; [|discriminate].
  destruct (str_in _ ALLOWED_EXTENSIONS); cbn [negb]; [|discriminate].
  destruct (size file) as [| |n]; simpl; try discriminate.
  - destruct (MAX_FILE_SIZE <? Z.of_nat (length (content file))); simpl; [discriminate|].
    destruct (DocumentType_of_str dt) as [dtv|]; simpl; [|discriminate].
    destruct (String.eqb (uuid4 (uuid_calls a)) "") eqn:Hj; simpl; [discriminate|].
    intros [= <- <-]. split; [reflexivity|]. exists dtv. auto.
  - destruct (MAX_FILE_SIZE <? n); simpl; [discriminate|].
    destruct (MAX_FILE_SIZE <? Z.of_nat (length (content file))); simpl; [discriminate|].
    destruct (DocumentType_of_str dt) as [dtv|]; simpl; [|discriminate].
    destruct (String.eqb (uuid4 (uuid_calls a)) "") eqn:Hj; simpl; [discriminate|].
    intros [= <- <-]. split; [reflexivity|]. exists dtv. auto.
Qed.

(** A request the first checks refuse is answered 400 and changes nothing. *)
Lemma upload_early_reject uuid4 file dt a :
  early_reject file dt = true ->
  exists detail,
    upload_document uuid4 file dt a = (Raise (HTTPException 400 detail), a).
Proof.
  unfold early_reject. unfold_api.
  destruct (str_in dt _); cbn [negb]; [|eauto].
  destruct (truthy_str (filename file)); cbn [negb]; [|eauto].
  destruct (str_in _ ALLOWED_EXTENSIONS); cbn [negb]; [|eauto].
  destruct (size file) as [| |n]; simpl; try discriminate.
  intros ->. eauto.
Qed.

(** C8: on an upload as the endpoint receives it, a request whose document
    type is not one of the two, whose file has an extension outside the
    allowed set (a file without a name has none), or whose content is over
    the maximum size, is refused with status 400 before anything happens:
    no job id is generated and the job store, the disk and the task list
    are as they were. *)
Theorem upload_rejected_before_job uuid4 file dt a
    (Hsize : parsed_upload file)
    (H : str_in dt ["employment_contract"; "payslip"] = false \/
         str_in (lower (path_suffix (default "" (filename file))))
           ALLOWED_EXTENSIONS = false \/
         oversize file) :
  rejected_before_job a (upload_document uuid4 file dt a) /\
  (upload_document uuid4 file dt a).2 = a.
Proof.
  assert (He : early_reject file dt = true).
  { unfold early_reject. rewrite Hsize.
    destruct H as [->|[->|Ho]]; cbn [negb orb].
    - reflexivity.
    - now rewrite orb_true_r.
    - apply Z.ltb_lt in Ho. rewrite Ho. now rewrite !orb_true_r. }
  destruct (upload_early_reject uuid4 file dt a He) as (detail & Hup).
  rewrite Hup. unfold rejected_before_job. cbn [fst snd]. eauto.
Qed.

(** The scenario of the specification: a file named test.exe is refused
    with status 400 and nothing is created. *)
Lemma upload_rejected_before_job_witness :
  rejected_before_job app0
    (upload_document uuid0 exe_upload "employment_contract" app0) /\
  (upload_document uuid0 exe_upload "employment_contract" app0).2 = app0.
Proof.
  apply (upload_rejected_before_job uuid0 exe_upload "employment_contract" app0).
  - reflexivity.
  - right; left. reflexivity.
Defined.

(* ===================================================================== *)
(** ** Jobs from upload to final record (C10) *)
(* ===================================================================== *)

(** C10: every allowed extension, without its dot, is a supported format.
    So when an upload has succeeded under a UUID job id, the record in the
    store has the file path of the response, [validate_file_format] is true
    of it, and the validation node, run on that record with the
    repository's document processor, returns it in status processing with
    no error message: the unsupported-format branch is not taken. *)
Theorem uploaded_file_format_supported uuid4 file dt a resp a1
    (Hup : upload_document uuid4 file dt a = (Return resp, a1))
    (Hid : is_uuid (resp_job_id resp) = true) :
  forallb (fun e => str_in (lstrip_dot (lower e))
                      DocumentProcessor.get_supported_formats)
    ALLOWED_EXTENSIONS = true /\
  exists s,
    job_storage a1 !! resp_job_id resp = Some s /\
    file_path s = resp_file_path resp /\
    DocumentProcessor.validate_file_format (file_path s) = true /\
    forall convert create build d, exists s',
      _validate_document_node (real_services convert create build) (mkHeap d s)
      = (Return s', mkHeap d s') /\
      processing_status s' = processing /\
      error_message s' = None.
Proof.
  split; [reflexivity|].
  destruct (upload_success _ _ _ _ _ _ Hup) as (Her & dtv & Hdt & Hj & -> & ->).
  cbn [resp_job_id resp_file_path job_storage] in *.
  eexists. split; [apply lookup_insert_eq|]. cbn [file_path].
  split; [reflexivity|].
  assert (Hext : str_in (lower (path_suffix (default "" (filename file))))
                   ALLOWED_EXTENSIONS = true).
  { unfold early_reject in Her.
    apply orb_false_elim in Her as [Her _].
    apply orb_false_elim in Her as [_ Hc].
    now apply negb_false_iff in Hc. }
  pose proof (upload_path_supported _ _ Hid Hext) as Hv.
  split; [exact Hv|].
  intros convert create build d. unfold_node. rewrite Hv. simpl.
  eexists. repeat split.
Qed.

(** A PDF uploaded under a UUID job id passes validation. *)
Lemma uploaded_file_format_supported_witness :
  exists s,
    job_storage (upload_document uuid0 pdf_upload "employment_contract" app0).2
      !! "123e4567-e89b-42d3-a456-426614174000" = Some s /\
    file_path s = "uploads/123e4567-e89b-42d3-a456-426614174000.pdf" /\
    DocumentProcessor.validate_file_format (file_path s) = true.
Proof.
  destruct (uploaded_file_format_supported uuid0 pdf_upload "employment_contract"
              app0
              (mkUploadResponse "123e4567-e89b-42d3-a456-426614174000"
                 "Document uploaded successfully. Processing started."
                 "uploads/123e4567-e89b-42d3-a456-426614174000.pdf")
              (upload_document uuid0 pdf_upload "employment_contract" app0).2)
    as (_ & s & Hs & Hp & Hv & _).
  - vm_compute. reflexivity.
  - vm_compute. reflexivity.
  - exists s. auto.
Defined.

(* ===================================================================== *)
(** ** The repository's own tests, on the model *)
(* ===================================================================== *)

(** tests/test_document_processing.py, [test_process_document_invalid_path]:
    a path that does not exist raises [FileNotFoundError]. *)
Example test_process_document_invalid_path :
  DocumentProcessor.process_document convert_ok [] "non_existent_file.pdf"
    employment_contract
  = Raise (Exception "Document not found: non_existent_file.pdf").
Proof. reflexivity. Qed.

(** [test_process_document_empty_input]: the empty path is the current
    directory, which exists; the converter fails on it and the result is a
    failure dict. *)
Example test_process_document_empty_input :
  DocumentProcessor.process_document
    (fun _ _ => Raise (Exception "not a document")) [] "" employment_contract
  = Return (ProcessFailure (Some "not a document")).
Proof. reflexivity. Qed.

(** tests/test_api_endpoints.py, [test_upload_invalid_document_type]:
    status 400. *)
Example test_upload_invalid_document_type :
  upload_document uuid0 pdf_upload "invalid_type" app0
  = (Raise (HTTPException 400
              "document_type must be either 'employment_contract' or 'payslip'"),
     app0).
Proof. reflexivity. Qed.

(** [test_upload_endpoint_with_file]: the upload is accepted and answers
    with the job id. *)
Example test_upload_endpoint_with_file :
  (upload_document uuid0 pdf_upload "employment_contract" app0).1
  = Return (mkUploadResponse "123e4567-e89b-42d3-a456-426614174000"
              "Document uploaded successfully. Processing started."
              "uploads/123e4567-e89b-42d3-a456-426614174000.pdf").
Proof. reflexivity. Qed.

(* ===================================================================== *)
(** ** Whole runs of the workflow *)
(* ===================================================================== *)

Lemma after_eq sv n d s s' d' :
  node_action sv n (mkHeap d s) = (Return s', mkHeap d' s') ->
  after sv n d s = (s', d').
Proof. intros H. unfold after. rewrite H. reflexivity. Qed.

Lemma after_inv sv n d s s' d' :
  after sv n d s = (s', d') ->
  node_action sv n (mkHeap d s) = (Return s', mkHeap d' s').
Proof.
  destruct (node_returns sv n d s) as (s1 & d1 & Hn).
  unfold after. rewrite Hn. simpl. now intros [= <- <-].
Qed.

Lemma edge_step n s :
  edge n s =
  match n with
  | validate_document =>
      Some (if is_failed s then handle_error else process_document_n)
  | process_document_n => Some (if is_failed s then handle_error else extract_data)
  | extract_data => Some (if is_failed s then handle_error else generate_pdf)
  | _ => None
  end.
Proof.
  destruct n; simpl; try reflexivity;
    unfold _should_continue_after_validation, _should_continue_after_processing,
      _should_continue_after_extraction, is_failed;
    destruct (Status_eqb (processing_status s) failed); reflexivity.
Qed.

Ltac exec_step H :=
  inversion H; clear H; subst;
  match goal with
  | Hn : node_action _ _ _ = _, He : edge _ ?s = _ |- _ =>
      rewrite (after_eq _ _ _ _ _ _ Hn); clear Hn;
      rewrite edge_step in He; try discriminate;
      try (destruct (is_failed s) eqn:?; injection He as <-)
  end.

Ltac exec_next := match goal with H : exec _ _ _ _ _ _ |- _ => exec_step H end.

(** A run of the graph is the path written out in [graph_trace]. *)
Lemma exec_graph_trace sv input d tr d' :
  exec sv START input d tr d' -> graph_trace sv input d = (tr, d').
Proof.
  unfold graph_trace, START. intros H.
  exec_step H.
  - exec_next. reflexivity.
  - exec_next.
    + exec_next. reflexivity.
    + exec_next.
      * exec_next. reflexivity.
      * exec_next. reflexivity.
Qed.

Lemma process_document_trace sv input h tr d' :
  graph_trace sv input (files h) = (tr, d') ->
  process_document sv input h =
    match check_fields (List.last (map snd tr) input) with
    | Return final => (Return final, mkHeap d' (List.last (map snd tr) input))
    | Raise e =>
        (Return (workflow_error_state input e),
         mkHeap d' (workflow_error_state input e))
    end.
Proof.
  intros Hg.
  destruct (process_document_spec sv input h) as (tr0 & d0 & Hex & Hpd).
  apply exec_graph_trace in Hex. rewrite Hg in Hex. injection Hex as <- <-.
  exact Hpd.
Qed.

(** What each step makes of what its collaborator answers. *)
Lemma validate_outcome sv d s r h' :
  node_action sv validate_document (mkHeap d s) = (r, h') ->
  match dp_validate_file_format sv (file_path s) with
  | Return true =>
      processing_status (state h') = processing /\
      error_message (state h') = error_message s
  | Return false =>
      failed_with (state h') ("Unsupported file format: " +:+ file_path s)
  | Raise e => failed_with (state h') ("Validation error: " +:+ str_exn e)
  end.
Proof. intros H; unfold failed_with; node_inv H; try discriminate; auto. Qed.

Lemma process_outcome sv d s r h' :
  node_action sv process_document_n (mkHeap d s) = (r, h') ->
  match dp_process_document sv d (file_path s) (document_type s) with
  | Return (ProcessSuccess text _ _) =>
      processing_status (state h') = processing /\
      extracted_text (state h') = Some text /\
      error_message (state h') = error_message s
  | Return (ProcessFailure err) =>
      failed_with (state h')
        ("Document processing failed: " +:+ default "Unknown error" err) /\
      extracted_text (state h') = extracted_text s
  | Raise e =>
      failed_with (state h') ("Processing error: " +:+ str_exn e) /\
      extracted_text (state h') = extracted_text s
  end.
Proof. intros H; unfold failed_with; node_inv H; try discriminate; auto. Qed.

Lemma extract_outcome sv d s r h' :
  node_action sv extract_data (mkHeap d s) = (r, h') ->
  match es_extract_from_document sv (extracted_text s) (document_type s) with
  | Return (ExtractSuccess data _) =>
      processing_status (state h') = processing /\
      structured_data (state h') = Some data /\
      error_message (state h') = error_message s
  | Return (ExtractFailure _ details) =>
      failed_with (state h')
        ("Data extraction failed: " +:+ default "Unknown error" details) /\
      structured_data (state h') = structured_data s
  | Raise e =>
      failed_with (state h') ("Extraction error: " +:+ str_exn e) /\
      structured_data (state h') = structured_data s
  end.
Proof. intros H; unfold failed_with; node_inv H; try discriminate; auto. Qed.

Lemma generate_outcome sv d s r h' :
  node_action sv generate_pdf (mkHeap d s) = (r, h') ->
  match structured_data s with
  | Some (kv :: data) =>
      match pg_generate_pdf sv d (kv :: data) (document_type s) (job_id s) with
      | (Return p, d1) =>
          processing_status (state h') = completed /\
          pdf_path (state h') = Some p /\ files h' = d1 /\
          error_message (state h') = error_message s
      | (Raise e, d1) =>
          failed_with (state h') ("PDF generation error: " +:+ str_exn e) /\
          pdf_path (state h') = pdf_path s /\ files h' = d1
      end
  | _ =>
      failed_with (state h') "No structured data available for PDF generation" /\
      pdf_path (state h') = pdf_path s /\ files h' = d
  end.
Proof.
  intros H; unfold failed_with.
  destruct (structured_data s) as [[|kv data]|] eqn:Hd.
  - revert H; unfold_node; rewrite Hd; simpl; intros [= <- <-]; auto.
  - revert H; unfold_node; rewrite Hd; simpl.
    destruct (pg_generate_pdf sv d (kv :: data) (document_type s) (job_id s))
      as [[p|e] d1]; simpl; intros [= <- <-]; auto.
  - revert H; unfold_node; rewrite Hd; simpl; intros [= <- <-]; auto.
Qed.

Lemma is_failed_false s : processing_status s = processing -> is_failed s = false.
Proof. unfold is_failed. now intros ->. Qed.

Lemma is_failed_true s m : failed_with s m -> is_failed s = true.
Proof. unfold is_failed. now intros [-> _]. Qed.

Lemma check_fields_ok s :
  job_id s <> "" -> file_path s <> "" -> check_fields s = Return s.
Proof.
  intros Hj Hf. unfold check_fields.
  destruct (String.eqb_spec (job_id s) ""); [contradiction|].
  destruct (String.eqb_spec (file_path s) ""); [contradiction|]. reflexivity.
Qed.

(** Run the next node of [graph_trace] and collect what is known of it. *)
Ltac after_step n s d H J T F R C O St :=
  destruct (after _ n _ _) as [s d] eqn:H; apply after_inv in H;
  pose proof (node_frame _ _ _ _ _ _ H) as (_ & J & T & F & R);
  pose proof (node_outputs _ _ _ _ _ _ H) as (C & O);
  pose proof (node_status _ _ _ _ _ _ H) as St;
  cbn [state files] in J, T, F, R, C, O, St.

Ltac finish_run :=
  intros [= <- <-]; cbn [map snd List.last];
  rewrite check_fields_ok by congruence;
  eexists _, _; split; [reflexivity|].

(** What the constructor returns, when it returns. *)
Lemma new_ProcessingState_Return j dt fp st em s :
  new_ProcessingState j dt fp st em = Return s ->
  j <> "" /\ fp <> "" /\
  exists dtv, DocumentType_of_str dt = Some dtv /\
              s = mkProcessingState j dtv fp None None st em None None [] 0.
Proof.
  unfold new_ProcessingState, check_fields.
  destruct (DocumentType_of_str dt) as [dtv|]; [|discriminate]. simpl.
  destruct (String.eqb_spec j ""); [discriminate|].
  destruct (String.eqb_spec fp ""); [discriminate|].
  intros [= <-]. eauto.
Qed.

(** The repository's services write values the checkpointer accepts when
    the libraries under them do. *)
Lemma real_services_packable convert create build :
  (forall fp dt r, convert fp dt = Return r ->
     int64 (DocumentProcessor.doc_page_count r) = true /\
     packable (PDict (DocumentProcessor.doc_metadata r)) = true) ->
  (forall text dt data, create text dt = Return data ->
     packable (PDict data) = true) ->
  packable_services (real_services convert create build).
Proof.
  intros Hc Hx. split.
  - intros d fp dt text pc md. cbn [dp_process_document real_services].
    unfold DocumentProcessor.process_document.
    destruct (exists_on d fp); cbn [negb]; [|discriminate].
    destruct (convert fp dt) as [r|e] eqn:Hr; [|discriminate].
    intros [= <- <- <-]. apply (Hc _ _ _ Hr).
  - intros text dt data mu. cbn [es_extract_from_document real_services].
    unfold ExtractionService.extract_from_document,
      ExtractionService._extract_structured_data.
    destruct dt;
      (destruct (create text _) as [data0|[c m|m|m]] eqn:Hr; try discriminate;
       intros [= <- <-]; split; [apply (Hx _ _ _ Hr)|reflexivity]).
Qed.

Lemma sv_ok_packable : packable_services sv_ok.
Proof.
  apply real_services_packable.
  - intros fp dt r [= <-]. split; reflexivity.
  - intros text dt data [= <-]. reflexivity.
Defined.

Lemma sv_extract_fails_packable : packable_services sv_extract_fails.
Proof.
  apply real_services_packable.
  - intros fp dt r [= <-]. split; reflexivity.
  - intros text dt data H. discriminate H.
Defined.

Lemma sv_empty_extraction_packable : packable_services sv_empty_extraction.
Proof.
  apply real_services_packable.
  - intros fp dt r [= <-]. split; reflexivity.
  - intros text dt data [= <-]. reflexivity.
Defined.

(** The path of a run in which every step succeeds. *)
Lemma run_all_steps sv input h text pc md kv data mu p d'
    (Hj : job_id input <> "") (Hf : file_path input <> "")
    (Hv : dp_validate_file_format sv (file_path input) = Return true)
    (Hp : dp_process_document sv (files h) (file_path input) (document_type input)
          = Return (ProcessSuccess text pc md))
    (He : es_extract_from_document sv (Some text) (document_type input)
          = Return (ExtractSuccess (kv :: data) mu))
    (Hg : pg_generate_pdf sv (files h) (kv :: data) (document_type input)
            (job_id input) = (Return p, d')) :
  exists s,
    process_document sv input h = (Return s, mkHeap d' s) /\
    processing_status s = completed /\
    current_node s = Some "generate_pdf" /\
    extracted_text s = Some text /\
    structured_data s = Some (kv :: data) /\
    pdf_path s = Some p /\
    error_message s = error_message input /\
    retry_count s = retry_count input.
Proof.
  destruct (graph_trace sv input (files h)) as [tr d0] eqn:Hgt.
  rewrite (process_document_trace _ _ _ _ _ Hgt).
  revert Hgt. unfold graph_trace.
  after_step validate_document s1 d1 H1 J1 T1 F1 R1 C1 O1 St1.
  destruct O1 as (X1 & S1 & P1 & ->).
  pose proof (validate_outcome _ _ _ _ _ H1) as V1. rewrite Hv in V1.
  cbn [state] in V1. destruct V1 as [V1a V1b].
  rewrite (is_failed_false s1) by exact V1a.
  after_step process_document_n s2 d2 H2 J2 T2 F2 R2 C2 O2 St2.
  destruct O2 as (S2 & P2 & ->).
  pose proof (process_outcome _ _ _ _ _ H2) as V2.
  rewrite F1, T1, Hp in V2. cbn [state] in V2. destruct V2 as (V2a & V2b & V2c).
  rewrite (is_failed_false s2) by exact V2a.
  after_step extract_data s3 d3 H3 J3 T3 F3 R3 C3 O3 St3.
  destruct O3 as (X3 & P3 & ->).
  pose proof (extract_outcome _ _ _ _ _ H3) as V3.
  rewrite V2b, T2, T1, He in V3. cbn [state] in V3. destruct V3 as (V3a & V3b & V3c).
  rewrite (is_failed_false s3) by exact V3a.
  after_step generate_pdf s4 d4 H4 J4 T4 F4 R4 C4 O4 St4.
  pose proof (generate_outcome _ _ _ _ _ H4) as V4.
  rewrite V3b, T3, T2, T1, J3, J2, J1, Hg in V4. cbn [state files] in V4.
  destruct V4 as (V4a & V4b & -> & V4d). destruct O4 as (X4 & S4).
  intros [= <- <-]. cbn [map snd List.last].
  rewrite check_fields_ok by congruence.
  exists s4. repeat split; try congruence; try exact C4.
  rewrite S4. exact V3b.
Qed.

(** X1: on a state as the constructor builds it from a job id, a type and
    a path, with services whose values the checkpointer can write, when
    every step succeeds (the format is supported, the conversion returns a
    text, the extraction returns a record that is not empty and the
    renderer returns a path), [process_document] returns a completed state
    whose last node is generate_pdf, which carries that text, that record
    and that path, with no error message and no retry counted; the disk is
    the renderer's. *)
Theorem all_steps_succeed sv j dt fp input h text pc md kv data mu p d'
    (Hnew : new_ProcessingState j dt fp pending None = Return input)
    (Hpk : packable_services sv)
    (Hv : dp_validate_file_format sv fp = Return true)
    (Hp : dp_process_document sv (files h) fp (document_type input)
          = Return (ProcessSuccess text pc md))
    (He : es_extract_from_document sv (Some text) (document_type input)
          = Return (ExtractSuccess (kv :: data) mu))
    (Hg : pg_generate_pdf sv (files h) (kv :: data) (document_type input) j
          = (Return p, d')) :
  exists s,
    process_document sv input h = (Return s, mkHeap d' s) /\
    processing_status s = completed /\
    current_node s = Some "generate_pdf" /\
    extracted_text s = Some text /\
    structured_data s = Some (kv :: data) /\
    pdf_path s = Some p /\
    error_message s = None /\
    retry_count s = 0.
Proof.
  destruct (new_ProcessingState_Return _ _ _ _ _ _ Hnew)
    as (Hj & Hf & dtv & _ & ->).
  cbn [document_type] in Hp, He, Hg.
  exact (run_all_steps sv
           (mkProcessingState j dtv fp None None pending None None None [] 0)
           h text pc md kv data mu p d' Hj Hf Hv Hp He Hg).
Qed.

(** The sample job, with libraries that all succeed, completes with the
    report of its type and id. *)
Lemma all_steps_succeed_witness :
  exists s,
    process_document sv_ok job0 heap0
    = (Return s,
       mkHeap ["generated_pdfs/employment_contract_job-1.pdf"; "uploads/job-1.pdf"] s) /\
    processing_status s = completed /\
    current_node s = Some "generate_pdf" /\
    extracted_text s = Some "Employment Contract Employee: John Doe" /\
    structured_data s = Some [("employee_full_name", PStr "John Doe")] /\
    pdf_path s = Some "generated_pdfs/employment_contract_job-1.pdf" /\
    error_message s = None /\
    retry_count s = 0.
Proof.
  apply (all_steps_succeed sv_ok "job-1" "employment_contract" "uploads/job-1.pdf"
           job0 heap0
           "Employment Contract Employee: John Doe" (Some (PInt 1))
           (Some [("format", PStr "pdf"); ("tables_found", PInt 0)])
           ("employee_full_name", PStr "John Doe") []
           (Some (PStr "EmploymentContract"))
           "generated_pdfs/employment_contract_job-1.pdf"
           ["generated_pdfs/employment_contract_job-1.pdf"; "uploads/job-1.pdf"]);
    try reflexivity.
  exact sv_ok_packable.
Defined.

(** Where a run ends, node by node. *)
Lemma process_document_ends sv input h :
  job_id input <> "" -> file_path input <> "" ->
  exists s h',
    process_document sv input h = (Return s, h') /\
    ((current_node s = Some "handle_error" /\
      processing_status s = failed /\
      files h' = files h /\
      pdf_path s = pdf_path input /\
      retry_count s =
        (if retry_count input <? max_retries then retry_count input + 1
         else retry_count input))
     \/
     (current_node s = Some "generate_pdf" /\
      processing_status s <> pending /\ processing_status s <> processing /\
      retry_count s = retry_count input)).
Proof.
  intros Hj Hf.
  destruct (graph_trace sv input (files h)) as [tr d0] eqn:Hgt.
  rewrite (process_document_trace _ _ _ _ _ Hgt).
  revert Hgt. unfold graph_trace.
  after_step validate_document s1 d1 H1 J1 T1 F1 R1 C1 O1 St1.
  destruct O1 as (X1 & S1 & P1 & ->).
  destruct (is_failed s1).
  { after_step handle_error sh dh Hh Jh Th Fh Rh Ch Oh Sth.
    destruct Oh as (? & ? & ? & ->). destruct Sth.
    finish_run. left. cbn [files].
    repeat split; try congruence; try exact Ch;
      try (rewrite Rh, ?R3, ?R2, ?R1; reflexivity). }
  after_step process_document_n s2 d2 H2 J2 T2 F2 R2 C2 O2 St2.
  destruct O2 as (S2 & P2 & ->).
  destruct (is_failed s2).
  { after_step handle_error sh dh Hh Jh Th Fh Rh Ch Oh Sth.
    destruct Oh as (? & ? & ? & ->). destruct Sth.
    finish_run. left. cbn [files].
    repeat split; try congruence; try exact Ch;
      try (rewrite Rh, ?R3, ?R2, ?R1; reflexivity). }
  after_step extract_data s3 d3 H3 J3 T3 F3 R3 C3 O3 St3.
  destruct O3 as (X3 & P3 & ->).
  destruct (is_failed s3).
  { after_step handle_error sh dh Hh Jh Th Fh Rh Ch Oh Sth.
    destruct Oh as (? & ? & ? & ->). destruct Sth.
    finish_run. left. cbn [files].
    repeat split; try congruence; try exact Ch;
      try (rewrite Rh, ?R3, ?R2, ?R1; reflexivity). }
  after_step generate_pdf s4 d4 H4 J4 T4 F4 R4 C4 O4 St4.
  finish_run. right.
  repeat split; try congruence; try exact C4.
  - destruct St4 as [[-> _]|[-> _]]; discriminate.
  - destruct St4 as [[-> _]|[-> _]]; discriminate.
Qed.

(** X2: a run of [process_document] on a state as the constructor builds
    it from a job id, a type and a path, with services whose values the
    checkpointer can write, returns a state of the same job, type and
    file, and ends in one of two ways.  Either its last node is
    handle_error: then the status is failed with a message, no report path
    is set, the disk is as before and one retry is counted.  Or its last
    node is generate_pdf: then the status is completed or failed (never
    pending or processing) and no retry is counted. *)
Theorem run_ends_in_handler_or_renderer sv j dt fp input h
    (Hnew : new_ProcessingState j dt fp pending None = Return input)
    (Hpk : packable_services sv) :
  exists s h',
    process_document sv input h = (Return s, h') /\
    job_id s = j /\ document_type s = document_type input /\
    file_path s = fp /\
    ((current_node s = Some "handle_error" /\
      processing_status s = failed /\
      (exists m, error_message s = Some m) /\
      files h' = files h /\
      pdf_path s = None /\
      retry_count s = 1)
     \/
     (current_node s = Some "generate_pdf" /\
      (processing_status s = completed \/ processing_status s = failed) /\
      retry_count s = 0)).
Proof.
  destruct (new_ProcessingState_Return _ _ _ _ _ _ Hnew)
    as (Hj & Hf & dtv & _ & ->).
  set (input := mkProcessingState _ _ _ _ _ _ _ _ _ _ _).
  destruct (process_document_ends sv input h Hj Hf) as (s & h' & Heq & Hend).
  destruct (process_document_result _ _ _ _ _ Heq)
    as (s0 & [= <-] & Hm & Hid & Hdt & Hfp & _).
  exists s, h'. split; [exact Heq|]. repeat (split; [assumption|]).
  destruct Hend as [(Hc & Hst & Hfl & Hp & Hr)|(Hc & Hnp & Hnq & Hr)].
  - left. repeat (split; [assumption|]). split; [exact (Hm Hst)|]. auto.
  - right. split; [exact Hc|]. split; [|exact Hr].
    destruct (processing_status s); auto; congruence.
Qed.

(** A job whose extraction fails ends in the error handler, failed, with
    one retry counted and the disk untouched. *)
Lemma run_ends_in_handler_or_renderer_witness :
  exists s,
    process_document sv_extract_fails job0 heap0 = (Return s, mkHeap (files heap0) s) /\
    current_node s = Some "handle_error" /\
    processing_status s = failed /\
    retry_count s = 1.
Proof.
  destruct (run_ends_in_handler_or_renderer sv_extract_fails
              "job-1" "employment_contract" "uploads/job-1.pdf" job0 heap0)
    as (s & h' & Heq & _); [reflexivity|exact sv_extract_fails_packable|].
  exists s. vm_compute in Heq. injection Heq as <- <-.
  repeat split.
Defined.

(** The path of a run whose extraction returns an empty record. *)
Lemma run_empty_extraction sv input h text pc md mu
    (Hj : job_id input <> "") (Hf : file_path input <> "")
    (Hv : dp_validate_file_format sv (file_path input) = Return true)
    (Hp : dp_process_document sv (files h) (file_path input) (document_type input)
          = Return (ProcessSuccess text pc md))
    (He : es_extract_from_document sv (Some text) (document_type input)
          = Return (ExtractSuccess [] mu)) :
  exists s,
    process_document sv input h = (Return s, mkHeap (files h) s) /\
    failed_with s "No structured data available for PDF generation" /\
    current_node s = Some "generate_pdf" /\
    structured_data s = Some [] /\
    pdf_path s = pdf_path input /\
    retry_count s = retry_count input.
Proof.
  destruct (graph_trace sv input (files h)) as [tr d0] eqn:Hgt.
  rewrite (process_document_trace _ _ _ _ _ Hgt).
  revert Hgt. unfold graph_trace.
  after_step validate_document s1 d1 H1 J1 T1 F1 R1 C1 O1 St1.
  destruct O1 as (X1 & S1 & P1 & ->).
  pose proof (validate_outcome _ _ _ _ _ H1) as V1. rewrite Hv in V1.
  cbn [state] in V1. rewrite (is_failed_false s1) by tauto.
  after_step process_document_n s2 d2 H2 J2 T2 F2 R2 C2 O2 St2.
  destruct O2 as (S2 & P2 & ->).
  pose proof (process_outcome _ _ _ _ _ H2) as V2.
  rewrite F1, T1, Hp in V2. cbn [state] in V2. destruct V2 as (V2a & V2b & V2c).
  rewrite (is_failed_false s2) by tauto.
  after_step extract_data s3 d3 H3 J3 T3 F3 R3 C3 O3 St3.
  destruct O3 as (X3 & P3 & ->).
  pose proof (extract_outcome _ _ _ _ _ H3) as V3.
  rewrite V2b, T2, T1, He in V3. cbn [state] in V3. destruct V3 as (V3a & V3b & V3c).
  rewrite (is_failed_false s3) by tauto.
  after_step generate_pdf s4 d4 H4 J4 T4 F4 R4 C4 O4 St4.
  pose proof (generate_outcome _ _ _ _ _ H4) as V4.
  rewrite V3b in V4. cbn [state files] in V4. destruct V4 as (V4a & V4b & ->).
  intros [= <- <-]. cbn [map snd List.last].
  rewrite check_fields_ok by congruence.
  exists s4. destruct O4 as (X4 & S4).
  repeat split; try congruence; try exact C4; try apply V4a.
  rewrite S4. exact V3b.
Qed.

(** X3: on a state as the constructor builds it, with services whose
    values the checkpointer can write, when the extraction succeeds with
    an empty record, the run goes on to generate_pdf and fails there with
    the message that no structured data is available: the error handler
    is not entered, so no retry is counted; the renderer is not called, no
    report path is set and the disk is as before. *)
Theorem empty_extraction_fails_at_rendering sv j dt fp input h text pc md mu
    (Hnew : new_ProcessingState j dt fp pending None = Return input)
    (Hpk : packable_services sv)
    (Hv : dp_validate_file_format sv fp = Return true)
    (Hp : dp_process_document sv (files h) fp (document_type input)
          = Return (ProcessSuccess text pc md))
    (He : es_extract_from_document sv (Some text) (document_type input)
          = Return (ExtractSuccess [] mu)) :
  exists s,
    process_document sv input h = (Return s, mkHeap (files h) s) /\
    failed_with s "No structured data available for PDF generation" /\
    current_node s = Some "generate_pdf" /\
    structured_data s = Some [] /\
    pdf_path s = None /\
    retry_count s = 0.
Proof.
  destruct (new_ProcessingState_Return _ _ _ _ _ _ Hnew)
    as (Hj & Hf & dtv & _ & ->).
  cbn [document_type] in Hp, He.
  exact (run_empty_extraction sv
           (mkProcessingState j dtv fp None None pending None None None [] 0)
           h text pc md mu Hj Hf Hv Hp He).
Qed.

(** The sample job, with an extraction that returns an empty record. *)
Lemma empty_extraction_fails_at_rendering_witness :
  exists s,
    process_document sv_empty_extraction job0 heap0
    = (Return s, mkHeap ["uploads/job-1.pdf"] s) /\
    failed_with s "No structured data available for PDF generation" /\
    current_node s = Some "generate_pdf" /\
    structured_data s = Some [] /\
    pdf_path s = None /\
    retry_count s = 0.
Proof.
  apply (empty_extraction_fails_at_rendering sv_empty_extraction
           "job-1" "employment_contract" "uploads/job-1.pdf" job0 heap0
           "Employment Contract Employee: John Doe" (Some (PInt 1))
           (Some [("format", PStr "pdf"); ("tables_found", PInt 0)])
           (Some (PStr "EmploymentContract")));
    try reflexivity.
  exact sv_empty_extraction_packable.
Defined.

(** The path of a run on a file of an unsupported format. *)
Lemma run_unsupported_format convert create build input h
    (Hj : job_id input <> "") (Hf : file_path input <> "")
    (Hv : DocumentProcessor.validate_file_format (file_path input) = false) :
  exists s,
    process_document (real_services convert create build) input h
    = (Return s, mkHeap (files h) s) /\
    failed_with s ("Unsupported file format: " +:+ file_path input) /\
    current_node s = Some "handle_error" /\
    retry_count s =
      (if retry_count input <? max_retries then retry_count input + 1
       else retry_count input) /\
    extracted_text s = extracted_text input /\
    structured_data s = structured_data input /\
    pdf_path s = pdf_path input.
Proof.
  destruct (graph_trace (real_services convert create build) input (files h))
    as [tr d0] eqn:Hgt.
  rewrite (process_document_trace _ _ _ _ _ Hgt).
  revert Hgt. unfold graph_trace.
  after_step validate_document s1 d1 H1 J1 T1 F1 R1 C1 O1 St1.
  destruct O1 as (X1 & S1 & P1 & ->).
  pose proof (validate_outcome _ _ _ _ _ H1) as V1.
  cbn [dp_validate_file_format real_services state] in V1. rewrite Hv in V1.
  rewrite (is_failed_true _ _ V1).
  after_step handle_error sh dh Hh Jh Th Fh Rh Ch Oh Sth.
  destruct Oh as (Xh & Sh & Ph & ->). destruct Sth as [Sta Stb].
  intros [= <- <-]. cbn [map snd List.last].
  rewrite check_fields_ok by congruence.
  exists sh. destruct V1 as [V1a V1b]. unfold failed_with.
  repeat split; try congruence; try exact Ch.
  rewrite Rh, R1. reflexivity.
Qed.

(** X4: with the repository's services, on a state as the constructor
    builds it, a file whose extension is not a supported format fails at
    validation: the run ends in the error handler with the message naming
    the file, one retry is counted although nothing is run again, and,
    whatever the three libraries would answer, there is no text, no record
    and no report path, and the disk is as before. *)
Theorem unsupported_format_run convert create build j dt fp input h
    (Hnew : new_ProcessingState j dt fp pending None = Return input)
    (Hv : DocumentProcessor.validate_file_format fp = false) :
  exists s,
    process_document (real_services convert create build) input h
    = (Return s, mkHeap (files h) s) /\
    failed_with s ("Unsupported file format: " +:+ fp) /\
    current_node s = Some "handle_error" /\
    retry_count s = 1 /\
    extracted_text s = None /\
    structured_data s = None /\
    pdf_path s = None.
Proof.
  destruct (new_ProcessingState_Return _ _ _ _ _ _ Hnew)
    as (Hj & Hf & dtv & _ & ->).
  exact (run_unsupported_format convert create build
           (mkProcessingState j dtv fp None None pending None None None [] 0)
           h Hj Hf Hv).
Qed.

(** A text file: refused at validation, whatever the libraries would do. *)
Lemma unsupported_format_run_witness :
  exists s,
    process_document sv_ok job_txt (mkHeap ["uploads/job-2.txt"] job_txt)
    = (Return s, mkHeap ["uploads/job-2.txt"] s) /\
    failed_with s "Unsupported file format: uploads/job-2.txt" /\
    current_node s = Some "handle_error" /\
    retry_count s = 1 /\
    extracted_text s = None /\ structured_data s = None /\ pdf_path s = None.
Proof.
  apply (unsupported_format_run convert_ok create_ok build_ok
           "job-2" "employment_contract" "uploads/job-2.txt" job_txt
           (mkHeap ["uploads/job-2.txt"] job_txt));
    reflexivity.
Defined.

(* ===================================================================== *)
(** ** The metadata and the messages of the steps *)
(* ===================================================================== *)

Lemma dict_get_set_eq d k v : dict_get (dict_set d k v) k = Some v.
Proof.
  induction d as [|[k' v'] r IH]; simpl.
  - now rewrite String.eqb_refl.
  - destruct (String.eqb k k') eqn:E; simpl.
    + now rewrite String.eqb_refl.
    + now rewrite E.
Qed.

Lemma dict_get_set_ne d k v k' :
  k' <> k -> dict_get (dict_set d k v) k' = dict_get d k'.
Proof.
  intros Hne. induction d as [|[k0 v0] r IH]; simpl.
  - destruct (String.eqb_spec k' k); [contradiction|reflexivity].
  - destruct (String.eqb_spec k k0) as [->|Hk]; simpl.
    + destruct (String.eqb_spec k' k0); [contradiction|reflexivity].
    + destruct (String.eqb k' k0); [reflexivity|exact IH].
Qed.

(** X5: each node touches one key of [processing_metadata], its own, and
    leaves every other entry as it was.  The error handler always files
    its entry, with the final error message, the retry count after the
    step and the node's name.  Any other node files a dict under its key
    when it does not fail, and leaves the whole metadata as it was when it
    fails. *)
Theorem metadata_entries sv n d s :
  exists s' d',
    node_action sv n (mkHeap d s) = (Return s', mkHeap d' s') /\
    (forall k, k <> metadata_key n ->
       dict_get (processing_metadata s') k = dict_get (processing_metadata s) k) /\
    match n with
    | handle_error =>
        dict_get (processing_metadata s') "error_handling"
        = Some (PDict [("final_error", pyval_of_opt_str (error_message s'));
                       ("retry_count", PInt (retry_count s'));
                       ("error_node", PStr "handle_error")])
    | _ =>
        if is_failed s' then processing_metadata s' = processing_metadata s
        else exists entry,
            dict_get (processing_metadata s') (metadata_key n) = Some (PDict entry)
    end.
Proof.
  destruct n; unfold_node; split_cases; eexists _, _;
    (split; [reflexivity|]); simpl;
    (split; [intros k Hk; try reflexivity; apply dict_get_set_ne; exact Hk|]);
    try reflexivity; try (rewrite dict_get_set_eq; eauto).
Qed.

(** X6: the four steps over the repository's own services, in terms of the
    three libraries.  Validation never touches the disk and fails exactly
    when the extension is not a supported format.  Processing, on a path
    that is the text pathlib prints for it, fails with "Processing error:
    Document not found" and the path when the file is not on the disk,
    with "Document processing failed" when the conversion raises, and
    otherwise stores the cleaned text.  Extraction fails with "Data
    extraction failed" when the model call raises and otherwise stores the
    record.  Rendering fails without calling the renderer when the record
    is missing or empty; otherwise, for a job id without a slash, it
    completes with the report path of the type and the job id, written to
    the disk, or fails with "PDF generation error". *)
Theorem repository_services_messages convert create build d s :
  let rs := real_services convert create build in
  (exists s',
      node_action rs validate_document (mkHeap d s) = (Return s', mkHeap d s') /\
      if DocumentProcessor.validate_file_format (file_path s)
      then processing_status s' = processing
      else failed_with s' ("Unsupported file format: " +:+ file_path s)) /\
  (exists s',
      node_action rs process_document_n (mkHeap d s) = (Return s', mkHeap d s') /\
      (plain_path (file_path s) = true ->
       if exists_on d (file_path s) then
         match convert (file_path s) (document_type s) with
         | Return r =>
             processing_status s' = processing /\
             extracted_text s' = Some (DocumentProcessor.cleaned_text r)
         | Raise e =>
             failed_with s' ("Document processing failed: " +:+ str_exn e)
         end
       else
         failed_with s'
           ("Processing error: Document not found: " +:+ file_path s))) /\
  (exists s',
      node_action rs extract_data (mkHeap d s) = (Return s', mkHeap d s') /\
      match create (extracted_text s) (document_type s) with
      | Return data =>
          processing_status s' = processing /\ structured_data s' = Some data
      | Raise e => failed_with s' ("Data extraction failed: " +:+ str_exn e)
      end) /\
  (exists s' d',
      node_action rs generate_pdf (mkHeap d s) = (Return s', mkHeap d' s') /\
      match structured_data s with
      | Some (kv :: data) =>
          no_slash (job_id s) = true ->
          match build (report_path (document_type s) (job_id s)) (kv :: data) with
          | Return _ =>
              processing_status s' = completed /\
              pdf_path s' = Some (report_path (document_type s) (job_id s)) /\
              d' = report_path (document_type s) (job_id s) :: d
          | Raise e =>
              failed_with s' ("PDF generation error: " +:+ str_exn e)
          end
      | _ =>
          failed_with s' "No structured data available for PDF generation" /\
          d' = d
      end).
Proof.
  cbv zeta. unfold failed_with, report_path. repeat apply conj.
  - unfold_node. destruct (DocumentProcessor.validate_file_format _); simpl;
      eexists; repeat split.
  - unfold_node. unfold DocumentProcessor.process_document.
    destruct (exists_on d (file_path s)); simpl.
    + destruct (convert _ _); simpl; eexists; repeat split.
    + eexists; repeat split.
  - unfold_node. unfold ExtractionService.extract_from_document,
      ExtractionService._extract_structured_data.
    destruct (document_type s); simpl;
      destruct (create _ _) as [data|[c m|m|m]]; simpl; eexists; repeat split.
  - unfold_node. destruct (structured_data s) as [[|kv data]|]; simpl.
    + eexists _, _; repeat split.
    + unfold PDFGenerator.generate_pdf.
      destruct (build _ _); simpl; eexists _, _; repeat split.
    + eexists _, _; repeat split.
Qed.

Lemma append_inj_r a b t : a +:+ t = b +:+ t -> a = b.
Proof.
  revert b; induction a as [|c a IH]; intros [|c' b] H; simpl in H.
  - reflexivity.
  - apply (f_equal String.length) in H.
    rewrite !length_app_str in H. simpl in H. lia.
  - apply (f_equal String.length) in H.
    rewrite !length_app_str in H. simpl in H. lia.
  - injection H as -> H. f_equal. now apply IH.
Qed.

Lemma real_generate_path build d data dt j p d' :
  PDFGenerator.generate_pdf build d data dt j = (Return p, d') ->
  p = report_path dt j /\ d' = report_path dt j :: d.
Proof.
  unfold PDFGenerator.generate_pdf, report_path.
  destruct (build _ data); intros [= <- <-]; auto.
Qed.

Lemma report_path_inj dt1 j1 dt2 j2 :
  report_path dt1 j1 = report_path dt2 j2 -> dt1 = dt2 /\ j1 = j2.
Proof.
  unfold report_path. intros H.
  destruct dt1, dt2; simpl in H; try discriminate; split; try reflexivity;
    injection H as H; eapply append_inj_r; exact H.
Qed.

(** X7: two reports that [generate_pdf] writes for jobs whose ids hold no
    slash and that differ in their document type or in their id are
    written to different paths: one job's report never overwrites
    another's. *)
Theorem report_paths_distinct build d1 d2 data1 data2 dt1 dt2 j1 j2 p1 p2 d1' d2'
    (Hs1 : no_slash j1 = true) (Hs2 : no_slash j2 = true)
    (Hne : dt1 <> dt2 \/ j1 <> j2)
    (H1 : PDFGenerator.generate_pdf build d1 data1 dt1 j1 = (Return p1, d1'))
    (H2 : PDFGenerator.generate_pdf build d2 data2 dt2 j2 = (Return p2, d2')) :
  p1 <> p2.
Proof.
  apply real_generate_path in H1 as [-> _].
  apply real_generate_path in H2 as [-> _].
  intros E. apply report_path_inj in E as [E1 E2]. tauto.
Qed.

(** Two payslips, for the jobs job-1 and job-2. *)
Lemma report_paths_distinct_witness :
  "generated_pdfs/payslip_job-1.pdf" <> "generated_pdfs/payslip_job-2.pdf".
Proof.
  apply (report_paths_distinct build_ok [] [] [] [] payslip payslip "job-1" "job-2"
           "generated_pdfs/payslip_job-1.pdf" "generated_pdfs/payslip_job-2.pdf"
           ["generated_pdfs/payslip_job-1.pdf"] ["generated_pdfs/payslip_job-2.pdf"]).
  - reflexivity.
  - reflexivity.
  - right. discriminate.
  - reflexivity.
  - reflexivity.
Defined.

(* ===================================================================== *)
(** ** The endpoints that read and delete *)
(* ===================================================================== *)

Ltac unfold_endpoint :=
  unfold get_processing_status, get_processing_result, download_pdf, delete_job,
    list_jobs, unlink_if_exists, path_exists, unlink, forget,
    try_except, bind, ret, raise, get, modify.

Ltac absurd_eq := let X := fresh in intros X; cbv beta iota in X; discriminate X.

Lemma exists_on_head p d : exists_on (p :: d) p = true.
Proof.
  unfold exists_on, str_in. destruct (path_parts p); [reflexivity|].
  simpl. now rewrite String.eqb_refl.
Qed.

Lemma exists_on_In d p : In p d -> exists_on d p = true.
Proof.
  intros Hin. unfold exists_on. destruct (path_parts p); [reflexivity|].
  unfold str_in. apply existsb_exists. exists p. split; [exact Hin|].
  apply String.eqb_refl.
Qed.

(** The four endpoints that take a job id answer 404 for an unknown one
    and change nothing. *)
Lemma unknown_job_404 os_error j a :
  job_storage a !! j = None ->
  get_processing_status j a = (Raise (HTTPException 404 "Job not found"), a) /\
  get_processing_result j a = (Raise (HTTPException 404 "Job not found"), a) /\
  download_pdf j a = (Raise (HTTPException 404 "Job not found"), a) /\
  delete_job os_error j a = (Raise (HTTPException 404 "Job not found"), a).
Proof. intros H. unfold_endpoint. rewrite H. auto. Qed.

Lemma filter_ne_In p q d :
  In q (List.filter (fun x => negb (String.eqb x p)) d) <-> In q d /\ q <> p.
Proof.
  rewrite filter_In. split; intros [H1 H2]; split; auto.
  - intros ->. rewrite String.eqb_refl in H2. discriminate.
  - destruct (String.eqb_spec q p); [contradiction|reflexivity].
Qed.

(** What [unlink_if_exists] does to the application. *)
Lemma unlink_if_exists_spec os_error p a r a' :
  unlink_if_exists os_error p a = (r, a') ->
  job_storage a' = job_storage a /\ uuid_calls a' = uuid_calls a /\
  background_tasks a' = background_tasks a /\
  (forall q, In q (app_files a') -> In q (app_files a)) /\
  match r with
  | Return _ =>
      forall x, p = Some x -> path_parts x <> [] -> ~ In x (app_files a')
  | Raise _ =>
      a' = a /\
      exists x, p = Some x /\ (path_parts x = [] \/ os_error x <> None)
  end.
Proof.
  unfold_endpoint.
  destruct (truthy_str p) eqn:Ht.
  - destruct (exists_on (app_files a) (default "" p)) eqn:He.
    + destruct p as [x|]; [|discriminate Ht]. cbn [default] in *.
      change (id x) with x in *.
      destruct (path_parts x) eqn:Hp.
      * intros [= <- <-]. repeat split; auto. exists x. auto.
      * destruct (os_error x) eqn:Hos.
        -- intros [= <- <-]. repeat split; auto. exists x. split; [reflexivity|].
           right. congruence.
        -- intros [= <- <-].
           cbn [job_storage uuid_calls background_tasks app_files].
           repeat split; auto.
           ++ intros q Hq. now apply filter_ne_In in Hq.
           ++ intros y [= <-] _ Hin. apply filter_ne_In in Hin. tauto.
    + intros [= <- <-]. repeat split; auto.
      intros x -> Hparts Hin. simpl in He. unfold exists_on in He.
      destruct (path_parts x); [congruence|].
      unfold str_in in He. apply not_true_iff_false in He. apply He.
      apply existsb_exists. exists x. split; [exact Hin|apply String.eqb_refl].
  - intros [= <- <-]. repeat split; auto.
    intros x -> Hparts _. destruct x; simpl in *; [|discriminate].
    apply Hparts. reflexivity.
Qed.

(** [delete_job] on a known job: the answer, the store and the disk. *)
Lemma delete_job_effect os_error j s a :
  job_storage a !! j = Some s ->
  exists a',
    delete_job os_error j a
    = (Return ("Job " +:+ j +:+ " deleted successfully"), a') /\
    job_storage a' = delete j (job_storage a) /\
    uuid_calls a' = uuid_calls a /\ background_tasks a' = background_tasks a /\
    (forall q, In q (app_files a') -> In q (app_files a)) /\
    (path_parts (file_path s) <> [] -> os_error (file_path s) = None ->
     ~ In (file_path s) (app_files a') /\
     forall p, pdf_path s = Some p -> path_parts p <> [] -> os_error p = None ->
               ~ In p (app_files a')).
Proof.
  intros Hs.
  destruct (unlink_if_exists os_error (Some (file_path s)) a) as [r1 a1] eqn:H1.
  pose proof (unlink_if_exists_spec _ _ _ _ _ H1) as (S1 & U1 & B1 & I1 & R1).
  destruct (unlink_if_exists os_error (pdf_path s) a1) as [r2 a2] eqn:H2.
  pose proof (unlink_if_exists_spec _ _ _ _ _ H2) as (S2 & U2 & B2 & I2 & R2).
  set (a0 := match r1 with Return _ => a2 | Raise _ => a1 end).
  assert (Hdel : delete_job os_error j a
                 = (Return ("Job " +:+ j +:+ " deleted successfully"),
                    mkApp (delete j (job_storage a0)) (app_files a0)
                      (uuid_calls a0) (background_tasks a0))).
  { unfold delete_job. unfold bind at 1. unfold get at 1. rewrite Hs.
    unfold try_except. unfold bind at 1. unfold bind at 1. rewrite H1.
    subst a0. destruct r1 as [[]|e1].
    - rewrite H2. destruct r2; reflexivity.
    - reflexivity. }
  assert (Hst : job_storage a0 = job_storage a
                /\ uuid_calls a0 = uuid_calls a
                /\ background_tasks a0 = background_tasks a).
  { subst a0. destruct r1; repeat split; congruence. }
  destruct Hst as (Hs0 & Hu0 & Hb0).
  eexists. split; [exact Hdel|].
  cbn [job_storage uuid_calls background_tasks app_files].
  rewrite Hs0.
  split; [reflexivity|]. split; [exact Hu0|]. split; [exact Hb0|].
  subst a0. split.
  - intros q Hq. destruct r1; auto.
  - intros Hparts Hos.
    destruct r1 as [u|e1].
    2:{ destruct R1 as (_ & x & [= <-] & [Hx|Hx]); contradiction. }
    split.
    + intros Hin. apply (R1 (file_path s) eq_refl Hparts). auto.
    + intros p Hp Hpp Hosp. destruct r2 as [u2|e2].
      * apply (R2 p Hp Hpp).
      * destruct R2 as (_ & x & Hx & [Hx0|Hx0]); rewrite Hp in Hx;
          injection Hx as <-; contradiction.
Qed.

(** X8: deleting a job that is in the store always succeeds, also when
    the removal of a file raises.  Its record is gone, so that the status,
    result, download and delete endpoints then answer 404 for it; every
    other record is as it was; no file is created; and when the upload
    path names a file that the operating system lets go, it is not on the
    disk any more, and then neither is the report, when its path names a
    file that the operating system lets go. *)
Theorem delete_job_removes os_error j s a (Hs : job_storage a !! j = Some s) :
  exists a',
    delete_job os_error j a
    = (Return ("Job " +:+ j +:+ " deleted successfully"), a') /\
    get_processing_status j a' = (Raise (HTTPException 404 "Job not found"), a') /\
    get_processing_result j a' = (Raise (HTTPException 404 "Job not found"), a') /\
    download_pdf j a' = (Raise (HTTPException 404 "Job not found"), a') /\
    delete_job os_error j a' = (Raise (HTTPException 404 "Job not found"), a') /\
    (forall k, k <> j -> job_storage a' !! k = job_storage a !! k) /\
    (forall q, In q (app_files a') -> In q (app_files a)) /\
    (path_parts (file_path s) <> [] -> os_error (file_path s) = None ->
     ~ In (file_path s) (app_files a') /\
     forall p, pdf_path s = Some p -> path_parts p <> [] -> os_error p = None ->
               ~ In p (app_files a')).
Proof.
  destruct (delete_job_effect os_error j s a Hs)
    as (a' & Hdel & Hst & _ & _ & Hin & Hgone).
  exists a'. split; [exact Hdel|].
  assert (Hnone : job_storage a' !! j = None)
    by (rewrite Hst; apply lookup_delete_eq).
  destruct (unknown_job_404 os_error j a' Hnone) as (G1 & G2 & G3 & G4).
  repeat (split; [assumption|]).
  split; [intros k Hk; rewrite Hst; now apply lookup_delete_ne|].
  auto.
Qed.

(** A freshly uploaded job is deleted: its file leaves the disk and a
    second delete answers 404. *)
Lemma delete_job_removes_witness :
  let a1 := (upload_document uuid0 pdf_upload "employment_contract" app0).2 in
  exists a',
    delete_job (fun _ => None) "123e4567-e89b-42d3-a456-426614174000" a1
    = (Return "Job 123e4567-e89b-42d3-a456-426614174000 deleted successfully", a') /\
    delete_job (fun _ => None) "123e4567-e89b-42d3-a456-426614174000" a'
    = (Raise (HTTPException 404 "Job not found"), a') /\
    ~ In "uploads/123e4567-e89b-42d3-a456-426614174000.pdf" (app_files a').
Proof.
  cbv zeta.
  destruct (delete_job_removes (fun _ => None)
              "123e4567-e89b-42d3-a456-426614174000"
              (mkProcessingState "123e4567-e89b-42d3-a456-426614174000"
                 employment_contract
                 "uploads/123e4567-e89b-42d3-a456-426614174000.pdf"
                 None None pending None None None [] 0)
              (upload_document uuid0 pdf_upload "employment_contract" app0).2)
    as (a' & Hdel & _ & _ & _ & H404 & _ & _ & Hgone).
  - vm_compute. reflexivity.
  - exists a'. split; [exact Hdel|]. split; [exact H404|].
    destruct Hgone as [Hg _];
      [vm_compute; discriminate|reflexivity|exact Hg].
Defined.

(** X9: right after a successful upload, the status endpoint shows the job
    as pending, with no node, no metadata and no error; the result endpoint
    answers with success false and no data; the download endpoint answers
    400, processing not completed; the uploaded file is on the disk under
    the path of the response; and one id was drawn. *)
Theorem upload_then_read uuid4 file dt a resp a1
    (Hup : upload_document uuid4 file dt a = (Return resp, a1)) :
  exists dtv,
    DocumentType_of_str dt = Some dtv /\
    get_processing_status (resp_job_id resp) a1
    = (Return (mkStatusResponse (resp_job_id resp) pending None [] None), a1) /\
    get_processing_result (resp_job_id resp) a1
    = (Return (mkResultResponse (resp_job_id resp) false dtv None None None), a1) /\
    download_pdf (resp_job_id resp) a1
    = (Raise (HTTPException 400 "Processing not completed"), a1) /\
    exists_on (app_files a1) (resp_file_path resp) = true /\
    uuid_calls a1 = S (uuid_calls a).
Proof.
  destruct (upload_success _ _ _ _ _ _ Hup) as (_ & dtv & Hdt & Hj & -> & ->).
  exists dtv. split; [exact Hdt|].
  cbn [resp_job_id resp_file_path].
  unfold_endpoint. cbn [job_storage app_files uuid_calls].
  rewrite lookup_insert_eq. cbn.
  repeat split. apply exists_on_head.
Qed.

(** The sample PDF, uploaded to the empty application. *)
Lemma upload_then_read_witness :
  let a1 := (upload_document uuid0 pdf_upload "employment_contract" app0).2 in
  get_processing_status "123e4567-e89b-42d3-a456-426614174000" a1
  = (Return (mkStatusResponse "123e4567-e89b-42d3-a456-426614174000" pending None
               [] None), a1) /\
  download_pdf "123e4567-e89b-42d3-a456-426614174000" a1
  = (Raise (HTTPException 400 "Processing not completed"), a1).
Proof.
  cbv zeta.
  destruct (upload_then_read uuid0 pdf_upload "employment_contract" app0
              (mkUploadResponse "123e4567-e89b-42d3-a456-426614174000"
                 "Document uploaded successfully. Processing started."
                 "uploads/123e4567-e89b-42d3-a456-426614174000.pdf")
              (upload_document uuid0 pdf_upload "employment_contract" app0).2)
    as (dtv & _ & Hst & _ & Hdl & _).
  - vm_compute. reflexivity.
  - split; [exact Hst|exact Hdl].
Defined.

Lemma fold_count_status l : forall p r c f,
  fold_left count_status l (p, r, c, f)
  = (p + count_of pending l, r + count_of processing l,
     c + count_of completed l, f + count_of failed l).
Proof.
  unfold count_of.
  induction l as [|s l IH]; intros p r c f; simpl.
  - repeat f_equal; lia.
  - destruct (processing_status s); simpl; rewrite IH;
      repeat (f_equal; try lia).
Qed.

Lemma count_of_total l :
  count_of pending l + count_of processing l + count_of completed l
  + count_of failed l = Z.of_nat (length l).
Proof.
  unfold count_of. induction l as [|s l IH]; simpl; [reflexivity|].
  destruct (processing_status s); simpl; lia.
Qed.

Lemma count_of_none st l :
  Forall (fun s => processing_status s <> st) l -> count_of st l = 0.
Proof.
  unfold count_of. induction 1 as [|s l Hs _ IH]; simpl; [reflexivity|].
  destruct (processing_status s), st; simpl; try exact IH; congruence.
Qed.

(** X10: [health_check] changes nothing and its numbers add up: each of
    the four counts is the number of records in that status, the total is
    the size of the store and the sum of the four counts, and the active
    jobs are the total less the completed and the failed. *)
Theorem health_counts wi a :
  exists hl,
    health_check wi a = (Return hl, a) /\
    total_jobs hl = Z.of_nat (base.size (job_storage a)) /\
    jobs_pending hl = count_of pending (map snd (items a)) /\
    jobs_processing hl = count_of processing (map snd (items a)) /\
    jobs_completed hl = count_of completed (map snd (items a)) /\
    jobs_failed hl = count_of failed (map snd (items a)) /\
    (total_jobs hl
     = jobs_pending hl + jobs_processing hl + jobs_completed hl + jobs_failed hl) /\
    (active_jobs hl = total_jobs hl - jobs_completed hl - jobs_failed hl).
Proof.
  unfold health_check, bind, get, ret.
  rewrite fold_count_status. cbn [total_jobs jobs_pending jobs_processing
    jobs_completed jobs_failed active_jobs].
  eexists. split; [reflexivity|]. cbn.
  pose proof (count_of_total (map snd (items a))) as Ht.
  rewrite length_map in Ht.
  assert (Hsz : length (items a) = base.size (job_storage a))
    by (unfold items; apply length_map_to_list).
  rewrite <- Hsz. repeat split; lia.
Qed.

(** X11: [list_jobs] changes nothing and lists one entry for each record
    of the store: an entry is in the list exactly when the status endpoint
    returns it for the entry's job id. *)
Theorem list_jobs_matches_status a :
  exists l,
    list_jobs a = (Return l, a) /\
    length l = base.size (job_storage a) /\
    forall r, In r l <-> get_processing_status (st_job_id r) a = (Return r, a).
Proof.
  unfold list_jobs, bind, get, ret. eexists. split; [reflexivity|]. split.
  - rewrite length_map. unfold items. apply length_map_to_list.
  - intros r. rewrite in_map_iff. unfold get_processing_status, bind, get, ret, raise.
    split.
    + intros ([k s] & <- & Hin). simpl.
      apply list_elem_of_In, elem_of_map_to_list in Hin. now rewrite Hin.
    + destruct (job_storage a !! st_job_id r) as [s|] eqn:Hl; [|discriminate].
      intros [= <-]. exists (st_job_id (status_response (st_job_id r) s), s).
      split; [reflexivity|].
      apply list_elem_of_In, elem_of_map_to_list. exact Hl.
Qed.

(* ===================================================================== *)
(** ** The job store, over every sequence of requests *)
(* ===================================================================== *)

Lemma upload_raise_keeps_store uuid4 file dt a e a' :
  upload_document uuid4 file dt a = (Raise e, a') -> job_storage a' = job_storage a.
Proof.
  unfold_api. split_cases; intros [= <- <-]; reflexivity.
Qed.

(** The record the background task stores. *)
Lemma background_record wi j fp dt a r a' :
  process_document_background wi j fp dt a = (r, a') ->
  match r with
  | Return _ =>
      exists s,
        job_storage a' = <[j := s]> (job_storage a) /\ record_ok j s
  | Raise _ => a' = a
  end.
Proof.
  intros Hb.
  destruct (background_spec wi j fp dt a)
    as [(e & _ & Heq)|(dtv & s & d' & Heq & Hs)];
    rewrite Heq in Hb; injection Hb as <- <-; [reflexivity|].
  exists s. split; [reflexivity|].
  cbv zeta in Hs.
  assert (Hne : j <> "" /\ fp <> "").
  { destruct (new_ProcessingState_cases j dt fp) as [[e He]|[dtv' Hok]].
    - exfalso. revert Heq. unfold process_document_background, try_except, bind, call.
      rewrite !He. discriminate.
    - destruct (new_ProcessingState_Return _ _ _ _ _ _ (Hok pending None)); tauto. }
  destruct Hne as [Hj Hf]. unfold record_ok.
  destruct wi as [sv|].
  - destruct Hs as (h' & Hpd & _).
    destruct (process_document_result _ _ _ _ _ Hpd) as (s1 & [= <-] & Hm & Hid & _).
    destruct (process_document_ends sv
                (mkProcessingState j dtv fp None None pending None None None [] 0)
                (mkHeap (app_files a)
                   (mkProcessingState j dtv fp None None pending None None None [] 0))
                Hj Hf) as (s2 & h2 & Heq2 & Hend).
    rewrite Hpd in Heq2. injection Heq2 as <- <-.
    split; [exact Hid|].
    destruct Hend as [(_ & Hst & _)|(_ & Hp & Hq & _)].
    + split; [congruence|]. split; [congruence|]. exact Hm.
    + split; [exact Hq|]. split; [tauto|]. exact Hm.
  - destruct Hs as [-> _]. simpl. repeat split; try discriminate. eauto.
Qed.

(** The invariant of the job store, by induction on the requests. *)
Lemma reachable_record_ok uuid4 a :
  reachable uuid4 a -> forall j s, job_storage a !! j = Some s -> record_ok j s.
Proof.
  induction 1 as [d n t|a a' Hr IH Hstep]; intros j s Hl.
  - simpl in Hl. rewrite lookup_empty in Hl. discriminate.
  - destruct Hstep as [file dt a r a' Hup|wi k fp dt a r a' Hb|os k a r a' Hd].
    + destruct r as [resp|e].
      * destruct (upload_success _ _ _ _ _ _ Hup) as (_ & dtv & _ & _ & _ & ->).
        cbn [job_storage] in Hl.
        destruct (decide (uuid4 (uuid_calls a) = j)) as [<-|Hne].
        -- rewrite lookup_insert_eq in Hl. injection Hl as <-.
           unfold record_ok. simpl. repeat split; discriminate.
        -- rewrite lookup_insert_ne in Hl by exact Hne. eauto.
      * rewrite (upload_raise_keeps_store _ _ _ _ _ _ Hup) in Hl. eauto.
    + pose proof (background_record _ _ _ _ _ _ _ Hb) as Hrec.
      destruct r as [u|e]; [|subst a'; eauto].
      destruct Hrec as (s0 & Hst & Hok). rewrite Hst in Hl.
      destruct (decide (k = j)) as [<-|Hne].
      * rewrite lookup_insert_eq in Hl. injection Hl as <-. exact Hok.
      * rewrite lookup_insert_ne in Hl by exact Hne. eauto.
    + destruct (job_storage a !! k) as [s0|] eqn:Hk.
      * destruct (delete_job_effect os k s0 a Hk) as (a0 & Heq & Hst & _).
        rewrite Heq in Hd. injection Hd as <- <-. rewrite Hst in Hl.
        destruct (decide (k = j)) as [<-|Hne].
        -- rewrite lookup_delete_eq in Hl. discriminate.
        -- rewrite lookup_delete_ne in Hl by exact Hne. eauto.
      * destruct (unknown_job_404 os k a Hk) as (_ & _ & _ & Heq).
        rewrite Heq in Hd. injection Hd as <- <-. eauto.
Qed.

Lemma app_uploaded_reachable : reachable uuid0 app_uploaded.
Proof.
  apply (reach_step uuid0 app0 app_uploaded); [apply reach_start|].
  apply (step_upload uuid0 pdf_upload "employment_contract" app0
           (upload_document uuid0 pdf_upload "employment_contract" app0).1).
  apply surjective_pairing.
Defined.

Lemma app_processed_reachable : reachable uuid0 app_processed.
Proof.
  apply (reach_step uuid0 app_uploaded app_processed);
    [apply app_uploaded_reachable|].
  apply (step_background uuid0 (Some sv_ok)
           "123e4567-e89b-42d3-a456-426614174000"
           "uploads/123e4567-e89b-42d3-a456-426614174000.pdf"
           "employment_contract" app_uploaded
           (process_document_background (Some sv_ok)
              "123e4567-e89b-42d3-a456-426614174000"
              "uploads/123e4567-e89b-42d3-a456-426614174000.pdf"
              "employment_contract" app_uploaded).1).
  apply surjective_pairing.
Defined.

(** X12: whatever uploads, background runs (under any services, for any
    job id, path and type) and deletions have happened since the store was
    empty, every record of the store is filed under its own job id, is
    never in the status processing, has no text, data, report, message or
    retry while it is pending, and has an error message when it is
    failed. *)
Theorem store_records_ok uuid4 a (Hr : reachable uuid4 a) :
  map_Forall record_ok (job_storage a).
Proof. intros j s Hl. exact (reachable_record_ok uuid4 a Hr j s Hl). Qed.

(** The store after the sample upload and its background run. *)
Lemma store_records_ok_witness : map_Forall record_ok (job_storage app_processed).
Proof. apply (store_records_ok uuid0 app_processed app_processed_reachable). Defined.

(** X13: on every reachable application the result endpoint never answers
    202, processing still in progress: for an unknown job it answers 404,
    and for a known one it returns the record's type, data, report path
    and message, with success exactly when the record is completed; for a
    pending job the data and the report path are empty. *)
Theorem result_is_never_not_ready uuid4 a (Hr : reachable uuid4 a) j :
  (job_storage a !! j = None /\
   get_processing_result j a = (Raise (HTTPException 404 "Job not found"), a))
  \/
  (exists s,
      job_storage a !! j = Some s /\
      get_processing_result j a
      = (Return (mkResultResponse j
                   (Status_eqb (processing_status s) completed)
                   (document_type s) (structured_data s) (pdf_path s)
                   (error_message s)), a) /\
      (processing_status s = pending -> structured_data s = None /\ pdf_path s = None)).
Proof.
  destruct (job_storage a !! j) as [s|] eqn:Hl.
  - right. exists s. split; [reflexivity|].
    destruct (reachable_record_ok uuid4 a Hr j s Hl) as (_ & Hnp & Hpend & _).
    unfold get_processing_result, bind, get, ret, raise. rewrite Hl.
    split; [|tauto].
    destruct (processing_status s); try reflexivity. congruence.
  - left. split; [reflexivity|].
    apply (unknown_job_404 (fun _ => None) j a Hl).
Qed.

(** The result of the sample job once processed: a success, with its data
    and report. *)
Lemma result_is_never_not_ready_witness :
  get_processing_result "123e4567-e89b-42d3-a456-426614174000" app_processed
  = (Return (mkResultResponse "123e4567-e89b-42d3-a456-426614174000" true
               employment_contract
               (Some [("employee_full_name", PStr "John Doe")])
               (Some "generated_pdfs/employment_contract_123e4567-e89b-42d3-a456-426614174000.pdf")
               None), app_processed).
Proof.
  destruct (result_is_never_not_ready uuid0 app_processed app_processed_reachable
              "123e4567-e89b-42d3-a456-426614174000")
    as [[Hn _]|(s & Hl & Hres & _)].
  - vm_compute in Hn. discriminate Hn.
  - rewrite Hres. vm_compute in Hl. injection Hl as <-. reflexivity.
Defined.

(** X14: on every reachable application [health_check] counts no job as
    processing, so that its active jobs are its pending jobs. *)
Theorem health_has_no_processing_jobs uuid4 a (Hr : reachable uuid4 a) wi :
  exists hl,
    health_check wi a = (Return hl, a) /\
    jobs_processing hl = 0 /\
    active_jobs hl = jobs_pending hl.
Proof.
  unfold health_check, bind, get, ret.
  rewrite fold_count_status.
  eexists. split; [reflexivity|].
  cbn [jobs_processing active_jobs jobs_pending].
  assert (H0 : count_of processing (map snd (items a)) = 0).
  { apply count_of_none. apply List.Forall_forall.
    intros s Hin. apply in_map_iff in Hin as ([k s0] & <- & Hin). simpl.
    apply list_elem_of_In, elem_of_map_to_list in Hin.
    apply (reachable_record_ok uuid4 a Hr k s0 Hin). }
  rewrite H0. split; lia.
Qed.

(** The health of the application after the sample job: one job,
    completed, none active. *)
Lemma health_has_no_processing_jobs_witness :
  health_check (Some sv_ok) app_processed
  = (Return (mkHealth "healthy" true 1 0 0 1 0 0), app_processed).
Proof.
  destruct (health_has_no_processing_jobs uuid0 app_processed
              app_processed_reachable (Some sv_ok)) as (hl & Heq & _).
  rewrite Heq. vm_compute in Heq. injection Heq as <-. reflexivity.
Defined.

(* ===================================================================== *)
(** ** A job from upload to download *)
(* ===================================================================== *)

(** X15: when the background task, over the repository's services, has
    stored a completed record for a job whose id holds no slash, that
    record's report path is the one [PDFGenerator] builds from the
    record's type and the job id, and the download endpoint then returns
    that file as application/pdf under the name of the job id with the
    extension pdf, changing nothing. *)
Theorem completed_job_is_downloadable convert create build j fp dt a a' s
    (Hid : no_slash j = true)
    (Hb : process_document_background (Some (real_services convert create build))
            j fp dt a = (Return tt, a'))
    (Hl : job_storage a' !! j = Some s)
    (Hc : processing_status s = completed) :
  pdf_path s = Some (report_path (document_type s) j) /\
  download_pdf j a'
  = (Return (mkFileResponse (report_path (document_type s) j) "application/pdf"
               (j +:+ ".pdf")), a').
Proof.
  destruct (background_spec (Some (real_services convert create build)) j fp dt a)
    as [(e & _ & Heq)|(dtv & s0 & d' & Heq & Hs)];
    rewrite Heq in Hb; [discriminate|]. injection Hb as <-.
  cbn [job_storage] in Hl. rewrite lookup_insert_eq in Hl. injection Hl as ->.
  cbv zeta in Hs. destruct Hs as (h' & Hpd & ->).
  destruct (process_document_result _ _ _ _ _ Hpd)
    as (s1 & [= <-] & _ & Hj & Hdt & _ & _ & _ & Hdone).
  destruct (Hdone Hc) as (d0 & data & p & Hg & Hp).
  cbn [pg_generate_pdf real_services document_type job_id] in Hg.
  apply real_generate_path in Hg as [-> Hd].
  cbn [document_type] in Hdt. rewrite Hdt.
  split; [exact Hp|].
  unfold download_pdf, path_exists, bind, get, ret, raise.
  cbn [job_storage app_files]. rewrite lookup_insert_eq, Hc, Hp, Hd.
  cbn [Status_eqb negb default].
  change (truthy_str (Some (report_path dtv j))) with true.
  cbv beta iota. cbn [app_files].
  rewrite exists_on_head. reflexivity.
Qed.

(** The sample job, processed with libraries that all succeed, can be
    downloaded. *)
Lemma completed_job_is_downloadable_witness :
  download_pdf "123e4567-e89b-42d3-a456-426614174000" app_processed
  = (Return (mkFileResponse
               "generated_pdfs/employment_contract_123e4567-e89b-42d3-a456-426614174000.pdf"
               "application/pdf" "123e4567-e89b-42d3-a456-426614174000.pdf"),
     app_processed).
Proof.
  destruct (completed_job_is_downloadable convert_ok create_ok build_ok
              "123e4567-e89b-42d3-a456-426614174000"
              "uploads/123e4567-e89b-42d3-a456-426614174000.pdf"
              "employment_contract" app_uploaded app_processed
              (default job0
                 (job_storage app_processed
                    !! "123e4567-e89b-42d3-a456-426614174000")))
    as [_ Hd].
  - reflexivity.
  - vm_compute. reflexivity.
  - vm_compute. reflexivity.
  - vm_compute. reflexivity.
  - rewrite Hd. vm_compute. reflexivity.
Defined.





(** C3, as the code has it: after a successful upload under a UUID job
    id, the background task over the repository's services stores a record
    which, when it is failed, has an error message, but has counted at most
    one retry, not three, although its file format is supported: no failed
    job of an upload has used up its retries.  The error handler fails the
    job at its first entry and a failure of the rendering never enters
    it. *)
Theorem failed_job_has_retries_left uuid4 convert create build file dt a resp a1
    (Hup : upload_document uuid4 file dt a = (Return resp, a1))
    (Hid : is_uuid (resp_job_id resp) = true) :
  exists a2 s,
    process_document_background (Some (real_services convert create build))
      (resp_job_id resp) (resp_file_path resp) dt a1 = (Return tt, a2) /\
    job_storage a2 !! resp_job_id resp = Some s /\
    (processing_status s = failed ->
     (exists m, error_message s = Some m) /\
     0 <= retry_count s <= 1 /\
     DocumentProcessor.validate_file_format (file_path s) = true /\
     ~ failed_after_retries_or_unsupported s).
Proof.
  destruct (upload_success _ _ _ _ _ _ Hup) as (Her & dtv & Hdt & Hj & -> & ->).
  cbn [resp_job_id resp_file_path] in *.
  set (jid := uuid4 (uuid_calls a)) in *.
  set (path := UPLOAD_DIR +:+ "/" +:+ jid
               +:+ lower (path_suffix (default "" (filename file)))) in *.
  set (a1 := mkApp _ _ _ _).
  assert (Hext : str_in (lower (path_suffix (default "" (filename file))))
                   ALLOWED_EXTENSIONS = true).
  { unfold early_reject in Her.
    apply orb_false_elim in Her as [Her _].
    apply orb_false_elim in Her as [_ Hc].
    now apply negb_false_iff in Hc. }
  pose proof (upload_path_supported _ _ Hid Hext) as Hv. fold path in Hv.
  destruct (background_spec (Some (real_services convert create build)) jid path dt a1)
    as [(e & Hbad & _)|(dtv' & s & d' & Hpb & Hs)].
  { exfalso. specialize (Hbad pending None). revert Hbad.
    unfold new_ProcessingState, check_fields. rewrite Hdt. simpl. rewrite Hj.
    discriminate. }
  exists (mkApp (<[jid := s]> (job_storage a1)) d' (uuid_calls a1) (background_tasks a1)), s.
  split; [exact Hpb|]. split; [apply lookup_insert_eq|].
  cbv zeta in Hs. destruct Hs as (h' & Hpd & ->).
  destruct (process_document_result _ _ _ _ _ Hpd)
    as (s1 & [= <-] & Hm & _ & _ & Hfp & Hlo & Hrc & _).
  cbn [file_path retry_count] in Hfp, Hlo, Hrc.
  intros Hfailed. rewrite Hfp.
  split; [exact (Hm Hfailed)|]. split; [lia|]. split; [exact Hv|].
  intros Hclaim. destruct (Hclaim Hfailed) as [_ [Hr|Hu]].
  - unfold max_retries in Hr. lia.
  - rewrite Hfp, Hv in Hu. discriminate.
Qed.

(** An upload of a PDF contract whose structured extraction fails: the
    record is failed after one attempt, with one retry counted. *)
Lemma failed_job_has_retries_left_witness :
  exists a2 s,
    process_document_background (Some sv_extract_fails)
      "123e4567-e89b-42d3-a456-426614174000"
      "uploads/123e4567-e89b-42d3-a456-426614174000.pdf"
      "employment_contract" app_uploaded = (Return tt, a2) /\
    job_storage a2 !! "123e4567-e89b-42d3-a456-426614174000" = Some s /\
    processing_status s = failed /\
    retry_count s = 1 /\
    ~ failed_after_retries_or_unsupported s.
Proof.
  destruct (failed_job_has_retries_left uuid0 convert_ok create_fails build_ok
              pdf_upload "employment_contract" app0
              (mkUploadResponse "123e4567-e89b-42d3-a456-426614174000"
                 "Document uploaded successfully. Processing started."
                 "uploads/123e4567-e89b-42d3-a456-426614174000.pdf")
              app_uploaded)
    as (a2 & s & Hb & Hl & Hfail).
  - vm_compute. reflexivity.
  - vm_compute. reflexivity.
  - exists a2, s. split; [exact Hb|]. split; [exact Hl|].
    cbn [resp_job_id resp_file_path] in Hb, Hl.
    assert (Hs : processing_status s = failed /\ retry_count s = 1).
    { vm_compute in Hb. injection Hb as <-.
      vm_compute in Hl. injection Hl as <-. split; reflexivity. }
    destruct Hs as [Hf Hr]. split; [exact Hf|]. split; [exact Hr|].
    apply (Hfail Hf).
Defined.

Lemma append_same_length a b x y :
  String.length a = String.length b -> a +:+ x = b +:+ y -> a = b.
Proof.
  revert b; induction a as [|c a IH]; intros [|c' b] Hl H; simpl in Hl;
    try discriminate; [reflexivity|].
  simpl in H. injection H as -> H. f_equal. apply IH; [lia|exact H].
Qed.

Lemma append_inj_l p x y : p +:+ x = p +:+ y -> x = y.
Proof.
  induction p as [|c p IH]; intros H; [exact H|].
  injection H as H. now apply IH.
Qed.

(** X17: two successful uploads, one after the other, whose job ids are
    different UUIDs, are saved under different paths; the second leaves
    the first job's record as it was, still pending for the status
    endpoint, and both files are on the disk. *)
Theorem uploads_do_not_interfere uuid4 f1 t1 f2 t2 a r1 a1 r2 a2
    (H1 : upload_document uuid4 f1 t1 a = (Return r1, a1))
    (H2 : upload_document uuid4 f2 t2 a1 = (Return r2, a2))
    (Hu1 : is_uuid (resp_job_id r1) = true)
    (Hu2 : is_uuid (resp_job_id r2) = true)
    (Hne : resp_job_id r1 <> resp_job_id r2) :
  resp_file_path r1 <> resp_file_path r2 /\
  job_storage a2 !! resp_job_id r1 = job_storage a1 !! resp_job_id r1 /\
  get_processing_status (resp_job_id r1) a2
  = (Return (mkStatusResponse (resp_job_id r1) pending None [] None), a2) /\
  exists_on (app_files a2) (resp_file_path r1) = true /\
  exists_on (app_files a2) (resp_file_path r2) = true.
Proof.
  destruct (upload_success _ _ _ _ _ _ H1) as (_ & dtv1 & _ & _ & -> & ->).
  destruct (upload_success _ _ _ _ _ _ H2) as (_ & dtv2 & _ & _ & -> & ->).
  cbn [resp_job_id resp_file_path job_storage app_files uuid_calls] in *.
  split; [|split; [|split; [|split]]].
  - intros E. apply Hne.
    apply append_inj_l, append_inj_l in E.
    apply append_same_length in E; [exact E|].
    unfold is_uuid in Hu1, Hu2.
    apply andb_prop in Hu1 as [L1 _]. apply andb_prop in Hu2 as [L2 _].
    apply Nat.eqb_eq in L1, L2. congruence.
  - apply lookup_insert_ne. congruence.
  - unfold get_processing_status, bind, get, ret, raise. cbn [job_storage].
    rewrite lookup_insert_ne by congruence. rewrite lookup_insert_eq. reflexivity.
  - apply exists_on_In. right; left; reflexivity.
  - apply exists_on_head.
Qed.

(** A contract, then a payslip, under two ids. *)
Lemma uploads_do_not_interfere_witness :
  let a1 := (upload_document uuid_seq pdf_upload "employment_contract" app0).2 in
  let a2 := (upload_document uuid_seq pdf_upload "payslip" a1).2 in
  get_processing_status "123e4567-e89b-42d3-a456-426614174000" a2
  = (Return (mkStatusResponse "123e4567-e89b-42d3-a456-426614174000" pending None
               [] None), a2) /\
  exists_on (app_files a2) "uploads/123e4567-e89b-42d3-a456-426614174000.pdf" = true /\
  exists_on (app_files a2) "uploads/9b2f0c1e-7d4a-4e8b-b1c3-5a6d7e8f9012.pdf" = true.
Proof.
  cbv zeta.
  destruct (uploads_do_not_interfere uuid_seq pdf_upload "employment_contract"
              pdf_upload "payslip" app0
              (mkUploadResponse "123e4567-e89b-42d3-a456-426614174000"
                 "Document uploaded successfully. Processing started."
                 "uploads/123e4567-e89b-42d3-a456-426614174000.pdf")
              (upload_document uuid_seq pdf_upload "employment_contract" app0).2
              (mkUploadResponse "9b2f0c1e-7d4a-4e8b-b1c3-5a6d7e8f9012"
                 "Document uploaded successfully. Processing started."
                 "uploads/9b2f0c1e-7d4a-4e8b-b1c3-5a6d7e8f9012.pdf")
              (upload_document uuid_seq pdf_upload "payslip"
                 (upload_document uuid_seq pdf_upload "employment_contract" app0).2).2)
    as (_ & _ & Hst & He1 & He2).
  - vm_compute. reflexivity.
  - vm_compute. reflexivity.
  - vm_compute. reflexivity.
  - vm_compute. reflexivity.
  - cbn [resp_job_id]. discriminate.
  - split; [exact Hst|]. split; [exact He1|exact He2].
Defined.

(* ===================================================================== *)
(** ** The front end's check and the server's *)
(* ===================================================================== *)

Lemma allowed_extension_format ext :
  str_in ext ALLOWED_EXTENSIONS = true ->
  str_in (lstrip_dot ext) DocumentProcessor.get_supported_formats = true.
Proof.
  unfold str_in at 1. unfold ALLOWED_EXTENSIONS. simpl existsb. intros H.
  repeat (apply orb_prop in H as [H|H];
          [apply String.eqb_eq in H; subst ext; reflexivity|]).
  discriminate.
Qed.

(** X18: the check the Streamlit front end makes on a chosen file accepts
    it exactly when the server's [validate_file_upload] accepts an upload
    that carries the same name and the same size; and a file the front end
    accepts has a format the document processor supports. *)
Theorem ui_validation_agrees_with_server f content :
  (StreamlitUtils.validate_file_upload (Some f) = true <->
   Main.validate_file_upload
     (mkUploadFile (Some (StreamlitUtils.name f))
        (SizeInt (StreamlitUtils.ui_size f)) content) = Return tt) /\
  (StreamlitUtils.validate_file_upload (Some f) = true ->
   DocumentProcessor.validate_file_format (StreamlitUtils.name f) = true).
Proof.
  unfold StreamlitUtils.validate_file_upload, Main.validate_file_upload.
  cbn [filename size].
  change (default "" (Some (StreamlitUtils.name f))) with (StreamlitUtils.name f).
  change (10 * 1024 * 1024) with MAX_FILE_SIZE.
  change [".pdf"; ".docx"; ".png"; ".jpg"; ".jpeg"; ".tiff"; ".bmp"]
    with ALLOWED_EXTENSIONS.
  assert (Hname : str_in (lower (path_suffix (StreamlitUtils.name f)))
                    ALLOWED_EXTENSIONS = true ->
                  truthy_str (Some (StreamlitUtils.name f)) = true).
  { destruct (StreamlitUtils.name f); [discriminate|reflexivity]. }
  destruct (str_in (lower (path_suffix (StreamlitUtils.name f))) ALLOWED_EXTENSIONS)
    eqn:Hext.
  - rewrite (Hname eq_refl). cbn [negb].
    destruct (MAX_FILE_SIZE <? StreamlitUtils.ui_size f).
    + split; [split; discriminate|discriminate].
    + split; [split; reflexivity|].
      intros _. unfold DocumentProcessor.validate_file_format.
      apply (allowed_extension_format _ Hext).
  - cbn [negb].
    destruct (MAX_FILE_SIZE <? StreamlitUtils.ui_size f);
      destruct (truthy_str (Some (StreamlitUtils.name f)));
      (split; [split; discriminate|discriminate]).
Qed.
